(** * LC709203F fuel-gauge driver: a shallow embedding of adafruit_lc709203f.py

    The driver talks to one I2C chip through word-sized register reads
    and writes, each protected by a CRC-8 and by a bounded retry loop.
    This file embeds the module in Rocq:

    - Python integers are [Z]; [&], [|], [^], [<<], [>>] are [Z.land],
      [Z.lor], [Z.lxor], [Z.shiftl], [Z.shiftr] (two's complement on an
      unbounded integer, as in Python);
    - the [CV] helper's dictionaries are stdpp [gmap]s;
    - the scratch [bytearray(10)] is a [list Z] updated with stdpp's
      list insert, with CPython's range check on every byte store (the
      properties below only store values in [range(0, 256)], on which
      every Python agrees);
    - the [I2CDevice] of adafruit_bus_device is taken as given: a probe,
      a write and a write-then-read, each of which completes or raises;
      the bus lock taken by its [with] block is not modelled;
    - exceptions are a [result] type threaded through a state monad over
      the driver object and the outside world (bus, clock, trace);
    - floats ([/ 1000], [+ 273.15], [int(...)]) are idealised as exact
      rationals [Q]. *)

From Stdlib Require Import ZArith QArith List String Lia.
From stdpp Require Import base list gmap strings.

Local Open Scope string_scope.
Local Open Scope list_scope.
Local Open Scope Z_scope.

(** ** Module constants (lines 51-65) *)

Definition LC709203F_I2CADDR_DEFAULT : Z := 0x0B.
Definition LC709203F_CMD_ICVERSION : Z := 0x11.
Definition LC709203F_CMD_BATTPROF : Z := 0x12.
Definition LC709203F_CMD_POWERMODE : Z := 0x15.
Definition LC709203F_CMD_APA : Z := 0x0B.
Definition LC709203F_CMD_INITRSOC : Z := 0x07.
Definition LC709203F_CMD_CELLVOLTAGE : Z := 0x09.
Definition LC709203F_CMD_CELLITE : Z := 0x0F.
Definition LC709203F_CMD_CELLTEMPERATURE : Z := 0x08.
Definition LC709203F_CMD_THERMISTORB : Z := 0x06.
Definition LC709203F_CMD_STATUSBIT : Z := 0x16.
Definition LC709203F_CMD_ALARMPERCENT : Z := 0x13.
Definition LC709203F_CMD_ALARMVOLTAGE : Z := 0x14.

Definition LC709203F_I2C_RETRY_COUNT : nat := 10.

(** ** The [CV] struct helper (lines 68-122) *)

(** One entry of the tuples handed to [add_values]:
    (name, value, string, lsb). *)
Definition value_tuple : Type := string * Z * string * option Z.

(** The class attributes [add_values] creates: the per-name constants
    set with [setattr], and the two dictionaries keyed by value. *)
Record CV : Type := mkCV {
  cv_attr : gmap string Z;
  cv_string : gmap Z string;
  cv_lsb : gmap Z (option Z)
}.

(** The class attributes and the two dictionaries are kept apart here,
    while [setattr] puts the names in the namespace of the class: the
    embedding is that of the code for tuples whose names do not collide
    with what the class already has ([string], [lsb], the two methods,
    the attributes of every class), as those of [PowerMode] and
    [PackSize] do not. *)
Definition add_values (value_tuples : list value_tuple) : CV :=
  foldl
    (fun cls (value_tuple : value_tuple) =>
       let '(name, value, string, lsb) := value_tuple in
       {| cv_attr := <[name := value]> (cv_attr cls);
          cv_string := <[value := string]> (cv_string cls);
          cv_lsb := <[value := lsb]> (cv_lsb cls) |})
    {| cv_attr := ∅; cv_string := ∅; cv_lsb := ∅ |}
    value_tuples.

(** [value in cls.string] *)
Definition is_valid (cls : CV) (value : Z) : bool :=
  bool_decide (is_Some (cv_string cls !! value)).

Definition PowerMode_values : list value_tuple :=
  [ ("OPERATE", 0x0001, "Operate", None);
    ("SLEEP", 0x0002, "Sleep", None) ].

Definition PowerMode : CV := add_values PowerMode_values.

Definition PackSize_values : list value_tuple :=
  [ ("MAH100", 0x08, "100 mAh", Some 100);
    ("MAH200", 0x0B, "200 mAh", Some 200);
    ("MAH400", 0x0E, "400 mAh", Some 400);
    ("MAH500", 0x10, "500 mAh", Some 500);
    ("MAH1000", 0x19, "1000 mAh", Some 1000);
    ("MAH2000", 0x2D, "2000 mAh", Some 2000);
    ("MAH2200", 0x30, "2200 mAh", Some 2200);
    ("MAH3000", 0x36, "3000 mAh", Some 3000) ].

Definition PackSize : CV := add_values PackSize_values.

(** The raw codes of a value set, in declaration order. *)
Definition codes (value_tuples : list value_tuple) : list Z :=
  map (fun t : value_tuple => snd (fst (fst t))) value_tuples.

(** [PowerMode.OPERATE] and [PackSize.MAH500], the two attributes the
    constructor reads. *)
Definition PowerMode_OPERATE : Z := 0x0001.
Definition PowerMode_SLEEP : Z := 0x0002.
Definition PackSize_MAH500 : Z := 0x10.

(** ** The CRC-8 routine (lines 276-288) *)

(** One pass of the inner [for _ in range(8)] body. *)
Definition crc_shift (crc : Z) : Z :=
  Z.land
    (if Z.eqb (Z.land crc 0x80) 0
     then Z.shiftl crc 1
     else Z.lxor (Z.shiftl crc 1) 0x07)
    0xFF.

(** One pass of the outer [for byte in data] body. *)
Definition crc_byte (crc byte : Z) : Z :=
  Nat.iter 8 crc_shift (Z.lxor crc byte).

Definition _generate_crc (data : list Z) : Z :=
  foldl crc_byte 0x00 data.

(** The CRC-8 engine as section 4.1 of the specification words it: an
    8-bit accumulator, XOR of each input byte, then eight rounds that
    test the high bit, shift left, conditionally XOR 0x07 and keep the
    low 8 bits.  It is compared with [_generate_crc] below. *)
Module Spec.

Definition high_bit_set (acc : Z) : bool := Z.testbit acc 7.

Definition mask8 (x : Z) : Z := x mod 256.

Definition round (acc : Z) : Z :=
  if high_bit_set acc
  then mask8 (Z.lxor (2 * acc) 7)
  else mask8 (2 * acc).

Fixpoint rounds (n : nat) (acc : Z) : Z :=
  match n with
  | O => acc
  | S n' => rounds n' (round acc)
  end.

Fixpoint crc8_from (acc : Z) (bytes : list Z) : Z :=
  match bytes with
  | [] => acc
  | b :: rest => crc8_from (rounds 8 (Z.lxor acc b)) rest
  end.

Definition crc8 (bytes : list Z) : Z := crc8_from 0 bytes.

End Spec.

(** ** Python values, exceptions and results *)

(** The exception classes the module raises or handles. *)
Inductive exn : Type :=
| OSError (msg : string)
| ValueError (msg : string)
| TypeError (msg : string).

Inductive result (A : Type) : Type :=
| Ok (a : A)
| Raise (e : exn).
Arguments Ok {A} a.
Arguments Raise {A} e.

(** The dynamically typed argument of the [thermistor_enable] setter,
    which is checked with [isinstance(status, bool)]. *)
Inductive pyval : Type :=
| PyNone
| PyBool (b : bool)
| PyInt (z : Z).

(** ** The outside world: bus, clock and trace *)

(** What one bus operation of the [I2CDevice] does: it raises, or it
    completes; a completed read delivers the bytes [rx]. *)
Inductive outcome : Type :=
| BusFail (e : exn)
| BusOk (rx : list Z).

(** The externally visible actions of the driver, in program order. *)
Inductive event : Type :=
| EvProbe (address : Z)
| EvSleep (seconds : Q)
| EvWrite (address : Z) (out : list Z)
| EvWriteThenReadinto (address : Z) (out : list Z) (in_len : nat).

(** The driver object together with its environment.  [oracle n] is the
    outcome of the [n]-th bus operation of the run and [clock] counts the
    operations made so far: the driver observes the bus only through
    these outcomes, so every run against a real bus is the run against
    some oracle.  [device_address] is the address held by the
    [I2CDevice]; [buf] is [self._buf]. *)
Record world : Type := mkWorld {
  oracle : nat -> outcome;
  clock : nat;
  device_address : Z;
  buf : list Z;
  trace : list event
}.

Definition set_buf (b : list Z) (w : world) : world :=
  {| oracle := oracle w; clock := clock w; device_address := device_address w;
     buf := b; trace := trace w |}.

Definition log (e : event) (w : world) : world :=
  {| oracle := oracle w; clock := clock w; device_address := device_address w;
     buf := buf w; trace := trace w ++ [e] |}.

Definition tick (w : world) : world :=
  {| oracle := oracle w; clock := S (clock w); device_address := device_address w;
     buf := buf w; trace := trace w |}.

(** ** The state-and-exception monad *)

Definition M (A : Type) : Type := world -> world * result A.

Definition ret {A : Type} (a : A) : M A := fun w => (w, Ok a).

Definition raise {A : Type} (e : exn) : M A := fun w => (w, Raise e).

Definition bind {A B : Type} (m : M A) (k : A -> M B) : M B :=
  fun w =>
    match m w with
    | (w', Ok a) => k a w'
    | (w', Raise e) => (w', Raise e)
    end.

Notation "'let*' x ':=' m 'in' k" := (bind m (fun x => k))
  (at level 10, x name, m at level 100, k at level 200).
Notation "m >> k" := (bind m (fun _ => k))
  (at level 90, right associativity).

(** [try: body except OSError: handler] where the handler ignores the
    exception object. *)
Definition try_except_OSError {A : Type} (body handler : M A) : M A :=
  fun w =>
    match body w with
    | (w', Raise (OSError _)) => handler w'
    | r => r
    end.

(** ** Primitive actions *)

Definition is_byte (v : Z) : bool := (0 <=? v) && (v <? 256).

(** [self._buf[i] = v]: a bytearray item store, which raises
    [ValueError] when [v] is not in [range(0, 256)]. *)
Definition buf_store (i : nat) (v : Z) : M unit :=
  fun w =>
    if is_byte v
    then (set_buf (<[i := v]> (buf w)) w, Ok tt)
    else (w, Raise (ValueError "byte must be in range(0, 256)")).

(** [self._buf[i]] *)
Definition buf_item (i : nat) (w : world) : Z := default 0 (buf w !! i).

(** [b[start:stop]] *)
Definition slice {A : Type} (b : list A) (start stop : nat) : list A :=
  take (stop - start) (drop start b).

(** [time.sleep(seconds)] *)
Definition sleep (seconds : Q) : M unit :=
  fun w => (log (EvSleep seconds) w, Ok tt).

(** A read transfer fills exactly the requested number of slots with
    bytes. *)
Definition fill (n : nat) (rx : list Z) : list Z :=
  take n (map (fun v => v mod 256) rx ++ replicate n 0).

(** [b[start:start+len(rx)] = rx] *)
Definition splice (b : list Z) (start : nat) (rx : list Z) : list Z :=
  take start b ++ rx ++ drop (start + length rx) b.

(** [I2CDevice(i2c_bus, address)]: the constructor probes the address. *)
Definition I2CDevice (address : Z) : M unit :=
  fun w =>
    let w' := tick (log (EvProbe address) w) in
    match oracle w (clock w) with
    | BusOk _ => (w', Ok tt)
    | BusFail e => (w', Raise e)
    end.

(** [with self.i2c_device as i2c: i2c.write(out)] *)
Definition i2c_write (out : list Z) : M unit :=
  fun w =>
    let w' := tick (log (EvWrite (device_address w) out) w) in
    match oracle w (clock w) with
    | BusOk _ => (w', Ok tt)
    | BusFail e => (w', Raise e)
    end.

(** [with self.i2c_device as i2c: i2c.write_then_readinto(self._buf,
    self._buf, out_start=.., out_end=.., in_start=.., in_end=..)].
    A transfer that raises is taken to leave the buffer as it was; the
    driver never reads the slots of the input range before a transfer
    that completed has filled them. *)
Definition i2c_write_then_readinto (out_start out_end in_start in_end : nat) : M unit :=
  fun w =>
    let out := slice (buf w) out_start out_end in
    let n := (in_end - in_start)%nat in
    let w' := tick (log (EvWriteThenReadinto (device_address w) out n) w) in
    match oracle w (clock w) with
    | BusOk rx => (set_buf (splice (buf w) in_start (fill n rx)) w', Ok tt)
    | BusFail e => (w', Raise e)
    end.

(** ** The retry loop shared by [_read_word] and [_write_word]

    [[
    for x in range(LC709203F_I2C_RETRY_COUNT):
        try:
            <body>; return ...
        except OSError as exception:
            if x == (LC709203F_I2C_RETRY_COUNT - 1):
                raise exception
    ]]
    The result is [Some a] when the body returned [a], and [None] when
    the loop ran off its end. *)
Fixpoint retry_loop {A : Type} (xs : list nat) (body : M A) : M (option A) :=
  match xs with
  | [] => ret None
  | x :: xs' =>
      fun w =>
        match body w with
        | (w', Ok a) => (w', Ok (Some a))
        | (w', Raise (OSError msg)) =>
            if Nat.eqb x (LC709203F_I2C_RETRY_COUNT - 1)
            then (w', Raise (OSError msg))
            else retry_loop xs' body w'
        | (w', Raise e) => (w', Raise e)
        end
  end.

(** ** [_read_word] (lines 290-319) *)

(** The body of the [try] block. *)
Definition read_attempt : M Z :=
  i2c_write_then_readinto 1 2 3 7 >>
  fun w =>
    let crc8 := _generate_crc (slice (buf w) 0 5) in
    if negb (Z.eqb crc8 (buf_item 5 w))
    then raise (OSError "CRC failure on reading word") w
    else ret (Z.lor (Z.shiftl (buf_item 4 w) 8) (buf_item 3 w)) w.

(** Returns [Some value], or [None] for the [return None] of line 319. *)
Definition _read_word (command : Z) : M (option Z) :=
  buf_store 0 (LC709203F_I2CADDR_DEFAULT * 2) >>
  buf_store 1 command >>
  (fun w => buf_store 2 (Z.lor (buf_item 0 w) 0x1) w) >>
  retry_loop (seq 0 LC709203F_I2C_RETRY_COUNT) read_attempt.

(** ** [_write_word] (lines 321-338) *)

Definition write_attempt : M unit :=
  fun w => i2c_write (slice (buf w) 1 5) w.

Definition _write_word (command data : Z) : M unit :=
  buf_store 0 (LC709203F_I2CADDR_DEFAULT * 2) >>
  buf_store 1 command >>
  buf_store 2 (Z.land data 0xFF) >>
  buf_store 3 (Z.land (Z.shiftr data 8) 0xFF) >>
  (fun w => buf_store 4 (_generate_crc (slice (buf w) 0 4)) w) >>
  retry_loop (seq 0 LC709203F_I2C_RETRY_COUNT) write_attempt >>
  ret tt.

(** ** Arithmetic on Python numbers *)

(** [r / d] for the value [r] returned by [_read_word]: true division,
    which raises [TypeError] on [None].  The quotient is the exact
    rational, of which the code returns the nearest double. *)
Definition true_div (r : option Z) (d : Z) : M Q :=
  match r with
  | Some raw => ret (inject_Z raw / inject_Z d)%Q
  | None => raise (TypeError "unsupported operand type(s) for /: 'NoneType' and 'int'")
  end.

(** [int(x)] on a float: truncation toward zero.  The argument is an
    exact rational here: the code truncates the double nearest to it,
    which can be the integer below when the rational is an integer, and
    raises on an infinity or a NaN, which no rational is. *)
Definition int (x : Q) : Z := Z.quot (Qnum x) (Z.pos (Qden x)).

(** Truth value of what [_read_word] returned, as tested by [if]. *)
Definition truthy (r : option Z) : bool :=
  match r with
  | Some z => negb (Z.eqb z 0)
  | None => false
  end.

(** ** Accessors (lines 154-273) *)

Definition init_RSOC : M unit :=
  _write_word LC709203F_CMD_INITRSOC 0xAA55.

Definition cell_voltage : M (option Q) :=
  try_except_OSError
    (let* r := _read_word LC709203F_CMD_CELLVOLTAGE in
     let* v := true_div r 1000 in
     ret (Some v))
    (ret None).

Definition cell_percent : M (option Q) :=
  try_except_OSError
    (let* r := _read_word LC709203F_CMD_CELLITE in
     let* v := true_div r 10 in
     ret (Some v))
    (ret None).

Definition cell_temperature : M (option Q) :=
  try_except_OSError
    (let* r := _read_word LC709203F_CMD_CELLTEMPERATURE in
     let* v := true_div r 10 in
     ret (Some (v - 273.15)%Q))
    (ret None).

Definition ic_version : M (option Z) :=
  _read_word LC709203F_CMD_ICVERSION.

Definition power_mode : M (option Z) :=
  _read_word LC709203F_CMD_POWERMODE.

Definition power_mode_setter (mode : Z) : M unit :=
  if negb (is_valid PowerMode mode)
  then raise (ValueError "power_mode must be a PowerMode")
  else _write_word LC709203F_CMD_POWERMODE mode.

Definition battery_profile : M (option Z) :=
  _read_word LC709203F_CMD_BATTPROF.

Definition battery_profile_setter (mode : Z) : M unit :=
  if negb (Z.eqb mode 0 || Z.eqb mode 1)
  then raise (ValueError "battery_profile must be 0 or 1")
  else _write_word LC709203F_CMD_BATTPROF mode.

Definition pack_size : M (option Z) :=
  _read_word LC709203F_CMD_APA.

Definition pack_size_setter (size : Z) : M unit :=
  if negb (is_valid PackSize size)
  then raise (ValueError "pack_size must be a PackSize")
  else _write_word LC709203F_CMD_APA size.

Definition thermistor_bconstant : M (option Z) :=
  _read_word LC709203F_CMD_THERMISTORB.

Definition thermistor_bconstant_setter (bconstant : Z) : M unit :=
  _write_word LC709203F_CMD_THERMISTORB bconstant.

Definition thermistor_enable : M (option Z) :=
  _read_word LC709203F_CMD_STATUSBIT.

(** [isinstance(status, bool)] admits only [True] and [False], which
    [_write_word] then uses as the integers 1 and 0. *)
Definition thermistor_enable_setter (status : pyval) : M unit :=
  match status with
  | PyBool b => _write_word LC709203F_CMD_STATUSBIT (Z.b2z b)
  | _ => raise (ValueError "thermistor_enable must be True or False")
  end.

Definition cell_temperature_setter (value : Q) : M unit :=
  let* te := thermistor_enable in
  if truthy te
  then raise (ValueError "temperature can only be set in i2c mode")
  else _write_word LC709203F_CMD_CELLTEMPERATURE (int (value + 273.15)%Q * 10).

Definition low_voltage_alarm_percent : M (option Z) :=
  _read_word LC709203F_CMD_ALARMPERCENT.

Definition low_voltage_alarm_percent_setter (percent : Z) : M unit :=
  if negb ((0 <=? percent) && (percent <=? 100))
  then raise (ValueError "alarm voltage percent must be 0-100")
  else _write_word LC709203F_CMD_ALARMPERCENT percent.

Definition low_voltage_alarm : M (option Z) :=
  _read_word LC709203F_CMD_ALARMVOLTAGE.

Definition low_voltage_alarm_setter (voltage : Z) : M unit :=
  _write_word LC709203F_CMD_ALARMVOLTAGE voltage.

(** ** Construction (lines 133-152) *)

(** [[
    for _ in range(3):
        try:
            self.i2c_device = i2c_device.I2CDevice(i2c_bus, address); break
        except ValueError as exc:
            value_exc = exc; time.sleep(0.1)
    else:
        raise value_exc
    ]] *)
Fixpoint probe_loop (xs : list nat) (address : Z) (value_exc : option exn) : M unit :=
  match xs with
  | [] =>
      match value_exc with
      | Some exc => raise exc
      | None => raise (TypeError "exceptions must derive from BaseException")
      end
  | _ :: xs' =>
      fun w =>
        match I2CDevice address w with
        | (w', Ok _) => (w', Ok tt)
        | (w', Raise (ValueError msg)) =>
            (sleep 0.1 >> probe_loop xs' address (Some (ValueError msg))) w'
        | (w', Raise e) => (w', Raise e)
        end
  end.

(** The driver object before [__init__] has run, on the bus [i2c_bus]. *)
Definition fresh (i2c_bus : nat -> outcome) (address : Z) : world :=
  {| oracle := i2c_bus; clock := 0; device_address := address;
     buf := []; trace := [] |}.

Definition __init__ (i2c_bus : nat -> outcome) (address : Z) : world * result unit :=
  (probe_loop (seq 0 3) address None >>
   (fun w => (set_buf (replicate 10 0) w, Ok tt)) >>
   power_mode_setter PowerMode_OPERATE >>
   pack_size_setter PackSize_MAH500 >>
   battery_profile_setter 1 >>
   sleep 0.1 >>
   init_RSOC >>
   sleep 0.1)
  (fresh i2c_bus address).

(** ** Simulated buses *)

(** The bus that plays [script] and then behaves as [after] for ever. *)
Definition scripted (script : list outcome) (after : outcome) : nat -> outcome :=
  fun n => nth n script after.

Definition nack : outcome := BusFail (OSError "[Errno 19] No such device").

(** A constructed driver on the bus [i2c_bus], as [__init__] leaves the
    object, with no history. *)
Definition device (i2c_bus : nat -> outcome) (address : Z) : world :=
  {| oracle := i2c_bus; clock := 0; device_address := address;
     buf := replicate 10 0; trace := [] |}.

(** A bus whose first read delivers 3700 (0x0E74) with its CRC. *)
Definition bus_3700 : nat -> outcome :=
  scripted [BusOk [0x74; 0x0E; 183; 0]] nack.

(** A bus that fails nine times and then delivers 3700 with its CRC. *)
Definition bus_nine_failures : nat -> outcome :=
  scripted (replicate 9 nack ++ [BusOk [0x74; 0x0E; 183; 0]]) nack.

(** A bus whose first response carries a corrupted CRC byte and whose
    second is good. *)
Definition bus_corrupted_once : nat -> outcome :=
  scripted [BusOk [0x74; 0x0E; 0; 0]; BusOk [0x74; 0x0E; 183; 0]] nack.

(** A bus on which every operation completes. *)
Definition bus_ok : nat -> outcome := scripted [] (BusOk []).

(** The bus on which every operation raises [OSError]. *)
Definition bus_dead : nat -> outcome := scripted [] nack.

(** The bus of a chip whose status register reads 0 (thermistor sensing
    disabled) and which acknowledges every write. *)
Definition bus_i2c_mode : nat -> outcome :=
  scripted [BusOk [0; 0; 222; 0]] (BusOk []).

(** A bus on which the first probe finds no device and everything after
    it completes. *)
Definition bus_slow_wake : nat -> outcome :=
  scripted [BusFail (ValueError "No I2C device at address: 0xb")] (BusOk []).

(** ** Vocabulary for stating the properties *)

(** Invariant of a constructed driver: the scratch buffer is the
    10-byte [bytearray] allocated by the constructor. *)
Definition wf (w : world) : Prop := length (buf w) = 10%nat.

Definition bytes (l : list Z) : Prop := Forall (fun v => 0 <= v < 256) l.

(** The bus operation raised [e], an [OSError]. *)
Definition bus_error (o : outcome) (e : exn) : Prop :=
  o = BusFail e /\ exists msg, e = OSError msg.

(** The bus delivered four bytes whose third is not the CRC of the read
    header followed by the first two. *)
Definition crc_mismatch (command : Z) (o : outcome) : Prop :=
  exists d0 d1 c x,
    o = BusOk [d0; d1; c; x] /\ bytes [d0; d1; c; x] /\
    c <> _generate_crc [0x16; command; 0x17; d0; d1].

(** The bus delivered the data bytes [d0], [d1] followed by their CRC. *)
Definition crc_match (command d0 d1 : Z) (o : outcome) : Prop :=
  exists x,
    o = BusOk [d0; d1; _generate_crc [0x16; command; 0x17; d0; d1]; x] /\
    bytes [d0; d1; x].

(** One read attempt on outcome [o] fails with exception [e]. *)
Definition read_fails (command : Z) (o : outcome) (e : exn) : Prop :=
  bus_error o e \/
  (crc_mismatch command o /\ e = OSError "CRC failure on reading word").

(** The four bytes [_write_word] puts on the wire. *)
Definition wire_frame (command data : Z) : list Z :=
  let lo := Z.land data 0xFF in
  let hi := Z.land (Z.shiftr data 8) 0xFF in
  [command; lo; hi; _generate_crc [0x16; command; lo; hi]].

(** The result of one read attempt as a function of the bus outcome. *)
Definition read_result (command : Z) (o : outcome) : result Z :=
  match o with
  | BusFail e => Raise e
  | BusOk rx =>
      let f := fill 4 rx in
      let d0 := nth 0 f 0 in
      let d1 := nth 1 f 0 in
      if negb (Z.eqb (_generate_crc [0x16; command; 0x17; d0; d1]) (nth 2 f 0))
      then Raise (OSError "CRC failure on reading word")
      else Ok (Z.lor (Z.shiftl d1 8) d0)
  end.

Definition write_result (o : outcome) : result unit :=
  match o with
  | BusFail e => Raise e
  | BusOk _ => Ok tt
  end.

(** [w'] is [w] after [n] more bus operations, each logged as [ev]. *)
Definition advanced (ev : event) (n : nat) (w w' : world) : Prop :=
  oracle w' = oracle w /\
  clock w' = (clock w + n)%nat /\
  trace w' = trace w ++ replicate n ev.

(** The scratch buffer as [_read_word] leaves it before its loop. *)
Definition read_ready (command a : Z) (w : world) : Prop :=
  device_address w = a /\
  exists t, length t = 7%nat /\ buf w = 0x16 :: command :: 0x17 :: t.

(** The scratch buffer as [_write_word] leaves it before its loop. *)
Definition write_ready (command data a : Z) (w : world) : Prop :=
  device_address w = a /\
  exists t, length t = 5%nat /\
    buf w = 0x16 :: wire_frame command data ++ t.

(** The frames as the specification words them, built from the address
    [A] the device was constructed with. *)
Definition spec_write_frame (A command value : Z) : list Z :=
  let head := [Z.shiftl A 1; command; Z.land value 0xFF;
               Z.land (Z.shiftr value 8) 0xFF] in
  head ++ [_generate_crc head].

Definition spec_read_header (A command : Z) : list Z :=
  [Z.shiftl A 1; command; Z.lor (Z.shiftl A 1) 1].

(** Two accumulators that differ, by a pattern of at most eight bits. *)
Definition differ (u v : Z) : Prop := 0 < Z.lxor u v < 256.

(** The chip answers a read of [command] with the two bytes a write of
    [data] put on the wire, followed by their CRC. *)
Definition echoes (command data : Z) (o : outcome) : Prop :=
  crc_match command (Z.land data 0xFF) (Z.land (Z.shiftr data 8) 0xFF) o.

(** [m] keeps a constructed driver constructed: the 10-byte buffer, the
    device address and the bus stay, and at most [n] bus operations are
    made. *)
Definition keeps {A : Type} (n : nat) (m : M A) : Prop :=
  forall w, wf w ->
    wf (fst (m w)) /\
    device_address (fst (m w)) = device_address w /\
    oracle (fst (m w)) = oracle w /\
    (clock w <= clock (fst (m w)) <= clock w + n)%nat.

(** The names handed to [add_values], in declaration order. *)
Definition names (value_tuples : list value_tuple) : list string :=
  map (fun t : value_tuple => fst (fst (fst t))) value_tuples.

(** All the bytes. *)
Definition all_bytes : list Z := map Z.of_nat (seq 0 256).

(** A bus that fails once with [OSError] and then raises an exception
    of another class. *)
Definition bus_broken : nat -> outcome :=
  scripted [nack; BusFail (TypeError "object with buffer protocol required")] nack.

(** A bus that acknowledges a write and then answers a read with the
    word 2 and its CRC for the POWERMODE register. *)
Definition bus_sleep_echo : nat -> outcome :=
  scripted [BusOk []; BusOk [0x02; 0x00; 206; 0]] nack.

(** A bus whose first response has a corrupted low data byte and whose
    second is good. *)
Definition bus_corrupted_data : nat -> outcome :=
  scripted [BusOk [0x75; 0x0E; 183; 0]; BusOk [0x74; 0x0E; 183; 0]] nack.

(** The bus of a chip whose status register reads 1 (thermistor sensing
    enabled). *)
Definition bus_thermistor_mode : nat -> outcome :=
  scripted [BusOk [1; 0; 203; 0]] (BusOk []).

(** A bus on which the probe succeeds and every later operation raises
    [OSError]. *)
Definition bus_probe_only : nat -> outcome :=
  scripted [BusOk []] nack.

(** The bus delivered four bytes whose third is not the CRC-8, as the
    specification defines it, of the read header followed by the first
    two. *)
Definition rejected_by_crc8 (command : Z) (o : outcome) : Prop :=
  exists d0 d1 c x,
    o = BusOk [d0; d1; c; x] /\ bytes [d0; d1; c; x] /\
    c <> Spec.crc8 [0x16; command; 0x17; d0; d1].

(** The getters that return the register word as it is, with their
    command codes. *)
Definition raw_getters : list (M (option Z) * Z) :=
  [ (ic_version, LC709203F_CMD_ICVERSION);
    (power_mode, LC709203F_CMD_POWERMODE);
    (battery_profile, LC709203F_CMD_BATTPROF);
    (pack_size, LC709203F_CMD_APA);
    (thermistor_bconstant, LC709203F_CMD_THERMISTORB);
    (thermistor_enable, LC709203F_CMD_STATUSBIT);
    (low_voltage_alarm_percent, LC709203F_CMD_ALARMPERCENT);
    (low_voltage_alarm, LC709203F_CMD_ALARMVOLTAGE) ].

(** The getters that scale the word and swallow [OSError], with their
    command codes. *)
Definition polling_getters : list (M (option Q) * Z) :=
  [ (cell_voltage, LC709203F_CMD_CELLVOLTAGE);
    (cell_percent, LC709203F_CMD_CELLITE);
    (cell_temperature, LC709203F_CMD_CELLTEMPERATURE) ].

Definition is_letter (c : Ascii.ascii) : bool :=
  let n := Ascii.nat_of_ascii c in
  (Nat.leb 65 n && Nat.leb n 90) || (Nat.leb 97 n && Nat.leb n 122).

Definition is_digit (c : Ascii.ascii) : bool :=
  let n := Ascii.nat_of_ascii c in
  Nat.leb 48 n && Nat.leb n 57.

Fixpoint all_chars (p : Ascii.ascii -> bool) (s : string) : bool :=
  match s with
  | EmptyString => true
  | String c rest => p c && all_chars p rest
  end.

(** The attributes a [CV] class has before [add_values] adds any. *)
Definition class_attributes : list string :=
  ["string"; "lsb"; "add_values"; "is_valid"].

(** A name that [setattr] can bind on the class without touching what
    the class already has: an identifier that starts with a letter and
    is none of [class_attributes]. *)
Definition plain_name (name : string) : bool :=
  match name with
  | EmptyString => false
  | String c rest =>
      is_letter c &&
      all_chars (fun c => is_letter c || is_digit c || Ascii.eqb c (Ascii.ascii_of_nat 95)) rest
  end &&
  negb (existsb (String.eqb name) class_attributes).

(** * Properties *)

(** ** Bit-level facts *)

Lemma land_0x80 (crc : Z) :
  Z.land crc 0x80 = if Z.testbit crc 7 then 0x80 else 0.
Proof.
  apply Z.bits_inj'. intros n Hn.
  rewrite Z.land_spec. change 0x80 with (2 ^ 7).
  destruct (Z.testbit crc 7) eqn:E.
  - rewrite Z.pow2_bits_eqb by lia.
    destruct (Z.eqb_spec 7 n) as [<- | Hne].
    + now rewrite E.
    + now rewrite andb_false_r.
  - rewrite Z.bits_0, Z.pow2_bits_eqb by lia.
    destruct (Z.eqb_spec 7 n) as [<- | Hne].
    + now rewrite E.
    + now rewrite andb_false_r.
Qed.

Lemma land_0xFF (x : Z) : Z.land x 0xFF = x mod 256.
Proof. change 0xFF with (Z.ones 8). rewrite Z.land_ones by lia. reflexivity. Qed.

Lemma land_0xFF_byte (x : Z) : 0 <= Z.land x 0xFF < 256.
Proof. rewrite land_0xFF. apply Z.mod_pos_bound. lia. Qed.

Lemma shiftl_1 (x : Z) : Z.shiftl x 1 = 2 * x.
Proof. rewrite Z.shiftl_mul_pow2 by lia. lia. Qed.

Lemma is_byte_true (v : Z) : is_byte v = true <-> 0 <= v < 256.
Proof. unfold is_byte. rewrite andb_true_iff, Z.leb_le, Z.ltb_lt. tauto. Qed.

Lemma testbit_byte_high (d n : Z) : 0 <= d < 256 -> 8 <= n -> Z.testbit d n = false.
Proof.
  intros Hd Hn. rewrite <- (Z.mod_small d (2 ^ 8)) by (change (2 ^ 8) with 256; lia).
  apply Z.mod_pow2_bits_high. lia.
Qed.

(** [(hi << 8) | lo] is the little-endian value [lo + 256 * hi]. *)
Lemma lor_shiftl_8 (lo hi : Z) :
  0 <= lo < 256 -> Z.lor (Z.shiftl hi 8) lo = lo + 256 * hi.
Proof.
  intros Hlo.
  assert (Hdisj : Z.land (Z.shiftl hi 8) lo = 0).
  { apply Z.bits_inj'. intros n Hn.
    rewrite Z.land_spec, Z.bits_0.
    destruct (Z.lt_ge_cases n 8) as [Hlt | Hge].
    - rewrite Z.shiftl_spec_low by lia. reflexivity.
    - rewrite (testbit_byte_high lo n) by lia. apply andb_false_r. }
  rewrite <- Z.lxor_lor by exact Hdisj.
  rewrite <- Z.add_nocarry_lxor by exact Hdisj.
  rewrite Z.shiftl_mul_pow2 by lia. change (2 ^ 8) with 256. lia.
Qed.

(** The two data bytes of a write frame carry [data mod 2^16]. *)
Lemma split_word (data : Z) :
  Z.land data 0xFF + 256 * Z.land (Z.shiftr data 8) 0xFF = data mod 65536.
Proof.
  rewrite !land_0xFF, Z.shiftr_div_pow2 by lia. change (2 ^ 8) with 256.
  pose proof (Z.div_mod data 256 ltac:(lia)) as H1.
  pose proof (Z.div_mod (data / 256) 256 ltac:(lia)) as H2.
  pose proof (Z.mod_pos_bound data 256 ltac:(lia)) as B1.
  pose proof (Z.mod_pos_bound (data / 256) 256 ltac:(lia)) as B2.
  apply (Z.mod_unique data 65536 (data / 256 / 256)); lia.
Qed.

(** ** The CRC-8 engine *)

Lemma crc_shift_round (acc : Z) : crc_shift acc = Spec.round acc.
Proof.
  unfold crc_shift, Spec.round, Spec.high_bit_set, Spec.mask8.
  rewrite land_0x80, land_0xFF, shiftl_1.
  destruct (Z.testbit acc 7); reflexivity.
Qed.

Lemma iter_rounds (n : nat) (acc : Z) : Nat.iter n crc_shift acc = Spec.rounds n acc.
Proof.
  revert acc. induction n as [| n IH]; intros acc; [reflexivity |].
  rewrite Nat.iter_succ_r. simpl. rewrite crc_shift_round. apply IH.
Qed.

Lemma foldl_crc8_from (data : list Z) (acc : Z) :
  foldl crc_byte acc data = Spec.crc8_from acc data.
Proof.
  revert acc. induction data as [| b rest IH]; intros acc; [reflexivity |].
  simpl. unfold crc_byte at 2. rewrite iter_rounds. apply IH.
Qed.

Lemma crc_shift_byte (crc : Z) : 0 <= crc_shift crc < 256.
Proof. unfold crc_shift. apply land_0xFF_byte. Qed.

Lemma crc_byte_byte (crc byte : Z) : 0 <= crc_byte crc byte < 256.
Proof. unfold crc_byte. simpl. apply crc_shift_byte. Qed.

Lemma generate_crc_byte (data : list Z) : 0 <= _generate_crc data < 256.
Proof.
  unfold _generate_crc.
  assert (H : forall acc, 0 <= acc < 256 -> 0 <= foldl crc_byte acc data < 256).
  { induction data as [| b rest IH]; intros acc Hacc; [exact Hacc |].
    simpl. apply IH. apply crc_byte_byte. }
  apply H. lia.
Qed.

(** C3: the CRC routine of the driver computes, on every byte sequence,
    what the engine described in the specification computes (XOR each
    byte into the accumulator, then eight rounds of shift-left with XOR
    0x07 when the high bit was set, keeping 8 bits); being a function it
    is deterministic, and its value on the empty sequence is 0. *)
Theorem generate_crc_refines_crc8 :
  (forall data : list Z, _generate_crc data = Spec.crc8 data) /\
  (forall data : list Z, 0 <= _generate_crc data < 256) /\
  _generate_crc [] = 0.
Proof.
  split; [| split].
  - intros data. unfold _generate_crc, Spec.crc8. apply foldl_crc8_from.
  - apply generate_crc_byte.
  - reflexivity.
Qed.

(** ** The retry loop *)

(** Case analysis on the test [x == LC709203F_I2C_RETRY_COUNT - 1]. *)
Ltac last_attempt_case :=
  match goal with
  | |- context [Nat.eqb ?a ?b] => destruct (Nat.eqb_spec a b)
  end.

Section Retry.
Context {A : Type}.
Variable body : M A.
Variable attempt : outcome -> result A.
Variable Inv : world -> Prop.
Variable ev : event.

(** One run of the body makes exactly one bus operation, whose outcome
    decides the result, and keeps the invariant. *)
Hypothesis body_step : forall w, Inv w ->
  snd (body w) = attempt (oracle w (clock w)) /\
  Inv (fst (body w)) /\
  advanced ev 1 w (fst (body w)).

Lemma advanced_step (n : nat) (w w1 w' : world) :
  advanced ev 1 w w1 -> advanced ev n w1 w' -> advanced ev (S n) w w'.
Proof.
  intros (Ho1 & Hc1 & Ht1) (Ho & Hc & Ht). repeat split.
  - congruence.
  - lia.
  - rewrite Ht, Ht1. simpl. rewrite <- app_assoc. reflexivity.
Qed.

(** [k] failed attempts followed by a successful one. *)
Lemma retry_succeeds (k : nat) :
  forall (n s : nat) (w : world) (a : A),
    (s + n = LC709203F_I2C_RETRY_COUNT)%nat -> (k < n)%nat -> Inv w ->
    (forall i, (i < k)%nat ->
       exists msg, attempt (oracle w (clock w + i)%nat) = Raise (OSError msg)) ->
    attempt (oracle w (clock w + k)%nat) = Ok a ->
    exists w', retry_loop (seq s n) body w = (w', Ok (Some a)) /\
               Inv w' /\ advanced ev (S k) w w'.
Proof.
  induction k as [| k IH]; intros n s w a Hsn Hk HI Hfail Hok.
  - destruct n as [| n]; [lia |]. simpl.
    destruct (body_step w HI) as (Hr & HI1 & Hadv).
    destruct (body w) as [w1 r]. simpl in *.
    rewrite Nat.add_0_r in Hok. rewrite Hr, Hok.
    exists w1. auto.
  - destruct n as [| n]; [lia |]. simpl.
    destruct (body_step w HI) as (Hr & HI1 & Hadv).
    destruct (body w) as [w1 r]. simpl in *.
    destruct (Hfail 0%nat ltac:(lia)) as [msg Hm].
    rewrite Nat.add_0_r in Hm. rewrite Hr, Hm.
    last_attempt_case; [unfold LC709203F_I2C_RETRY_COUNT in *; lia |].
    destruct Hadv as (Ho1 & Hc1 & Ht1).
    destruct (IH n (S s) w1 a) as (w' & Hrun & HI' & Hadv').
    + lia.
    + lia.
    + exact HI1.
    + intros i Hi. rewrite Ho1, Hc1.
      replace (clock w + 1 + i)%nat with (clock w + S i)%nat by lia.
      apply Hfail. lia.
    + rewrite Ho1, Hc1.
      replace (clock w + 1 + k)%nat with (clock w + S k)%nat by lia.
      exact Hok.
    + exists w'. split; [exact Hrun |]. split; [exact HI' |].
      apply (advanced_step (S k) w w1 w'); [repeat split; assumption | exact Hadv'].
Qed.

(** Every remaining attempt fails: the error of the last one is
    raised, after exactly as many bus operations as attempts. *)
Lemma retry_exhausted (n : nat) :
  forall (s : nat) (w : world) (msg : string),
    (s + S n = LC709203F_I2C_RETRY_COUNT)%nat -> Inv w ->
    (forall i, (i < n)%nat ->
       exists m, attempt (oracle w (clock w + i)%nat) = Raise (OSError m)) ->
    attempt (oracle w (clock w + n)%nat) = Raise (OSError msg) ->
    exists w', retry_loop (seq s (S n)) body w = (w', Raise (OSError msg)) /\
               Inv w' /\ advanced ev (S n) w w'.
Proof.
  induction n as [| n IH]; intros s w msg Hsn HI Hfail Hlast.
  - simpl.
    destruct (body_step w HI) as (Hr & HI1 & Hadv).
    destruct (body w) as [w1 r]. simpl in *.
    rewrite Nat.add_0_r in Hlast. rewrite Hr, Hlast.
    last_attempt_case.
    + exists w1. auto.
    + unfold LC709203F_I2C_RETRY_COUNT in *. lia.
  - cbn [seq retry_loop].
    destruct (body_step w HI) as (Hr & HI1 & Hadv).
    destruct (body w) as [w1 r]. simpl in Hr, HI1, Hadv.
    destruct (Hfail 0%nat ltac:(lia)) as [m Hm].
    rewrite Nat.add_0_r in Hm. rewrite Hr, Hm.
    last_attempt_case; [unfold LC709203F_I2C_RETRY_COUNT in *; lia |].
    destruct Hadv as (Ho1 & Hc1 & Ht1).
    destruct (IH (S s) w1 msg) as (w' & Hrun & HI' & Hadv').
    + lia.
    + exact HI1.
    + intros i Hi. rewrite Ho1, Hc1.
      replace (clock w + 1 + i)%nat with (clock w + S i)%nat by lia.
      apply Hfail. lia.
    + rewrite Ho1, Hc1.
      replace (clock w + 1 + n)%nat with (clock w + S n)%nat by lia.
      exact Hlast.
    + exists w'. split; [exact Hrun |]. split; [exact HI' |].
      apply (advanced_step (S n) w w1 w'); [repeat split; assumption | exact Hadv'].
Qed.

(** A loop with attempts left makes at least one bus operation. *)
Lemma retry_clock (n : nat) :
  forall (s : nat) (w : world),
    Inv w -> (clock w < clock (fst (retry_loop (seq s (S n)) body w)))%nat.
Proof.
  induction n as [| n IH]; intros s w HI.
  - cbn [seq retry_loop].
    destruct (body_step w HI) as (_ & _ & (_ & Hc & _)).
    destruct (body w) as [w1 [a | [m | m | m]]]; cbn [fst] in *;
      try last_attempt_case; cbn [fst ret]; lia.
  - cbn [seq retry_loop].
    destruct (body_step w HI) as (_ & HI1 & (_ & Hc & _)).
    specialize (IH (S s) (fst (body w)) HI1).
    destruct (body w) as [w1 [a | [m | m | m]]]; cbn [fst] in *;
      try last_attempt_case; cbn [fst]; try lia.
    cbn [seq retry_loop] in IH. lia.
Qed.

(** Whatever the bus does, a loop over [n] indices makes at most [n]
    bus operations, and at least one when [n] is positive. *)
Lemma retry_advances (n : nat) :
  forall (s : nat) (w : world),
    Inv w ->
    exists j, (j <= n)%nat /\ (0 < n -> 0 < j)%nat /\
              advanced ev j w (fst (retry_loop (seq s n) body w)) /\
              Inv (fst (retry_loop (seq s n) body w)).
Proof.
  induction n as [| n IH]; intros s w HI.
  - exists 0%nat. cbn [seq retry_loop ret fst].
    split; [lia |]. split; [lia |]. split; [| exact HI].
    unfold advanced. cbn [replicate]. rewrite app_nil_r.
    split; [reflexivity |]. split; [lia | reflexivity].
  - cbn [seq retry_loop].
    destruct (body_step w HI) as (_ & HI1 & Hadv).
    destruct (IH (S s) (fst (body w)) HI1) as (j & Hj & _ & Hadvj & HIj).
    assert (Hone : exists j1, (j1 <= S n)%nat /\ (0 < S n -> 0 < j1)%nat /\
              advanced ev j1 w (fst (body w)) /\ Inv (fst (body w))).
    { exists 1%nat. split; [lia |]. split; [lia |]. split; assumption. }
    assert (Hmore : exists j1, (j1 <= S n)%nat /\ (0 < S n -> 0 < j1)%nat /\
              advanced ev j1 w (fst (retry_loop (seq (S s) n) body (fst (body w)))) /\
              Inv (fst (retry_loop (seq (S s) n) body (fst (body w))))).
    { exists (S j). split; [lia |]. split; [lia |]. split; [| exact HIj].
      exact (advanced_step j w _ _ Hadv Hadvj). }
    destruct (body w) as [w1 [a | [m | m | m]]]; cbn [fst] in *;
      try exact Hone.
    last_attempt_case; [exact Hone | exact Hmore].
Qed.
End Retry.

(** ** One attempt of each transaction *)

Arguments _generate_crc : simpl never.
Arguments Z.lor : simpl never.
Arguments Z.land : simpl never.
Arguments Z.shiftl : simpl never.
Arguments Z.shiftr : simpl never.
Arguments Z.modulo : simpl never.
Arguments Z.mul : simpl never.

(** A list of known length is a list of that many elements. *)
Ltac explode l H :=
  repeat (destruct l as [| ? l]; [discriminate H |]);
  destruct l; [| discriminate H].

Lemma fill_4 (rx : list Z) :
  exists f0 f1 f2 f3, fill 4 rx = [f0; f1; f2; f3].
Proof.
  unfold fill.
  destruct rx as [| r0 [| r1 [| r2 [| r3 rest]]]]; simpl; eauto.
Qed.

Lemma fill_4_bytes (d0 d1 c x : Z) :
  bytes [d0; d1; c; x] -> fill 4 [d0; d1; c; x] = [d0; d1; c; x].
Proof.
  intros Hb. unfold bytes in Hb.
  inversion Hb as [| ? ? H0 Hb1]; subst.
  inversion Hb1 as [| ? ? H1 Hb2]; subst.
  inversion Hb2 as [| ? ? H2 Hb3]; subst.
  inversion Hb3 as [| ? ? H3 _]; subst.
  unfold fill. simpl.
  rewrite !Z.mod_small by lia. reflexivity.
Qed.

Lemma read_ready_wf (command a : Z) (w : world) : read_ready command a w -> wf w.
Proof. intros (_ & t & Ht & Hb). unfold wf. rewrite Hb. simpl. lia. Qed.

Lemma write_ready_wf (command data a : Z) (w : world) :
  write_ready command data a w -> wf w.
Proof. intros (_ & t & Ht & Hb). unfold wf. rewrite Hb. simpl. lia. Qed.

Lemma advanced_one (ev : event) (w : world) (b : list Z) :
  advanced ev 1 w (set_buf b (tick (log ev w))).
Proof. unfold advanced. simpl. split; [reflexivity |]. split; [lia | reflexivity]. Qed.

Lemma advanced_one' (ev : event) (w : world) :
  advanced ev 1 w (tick (log ev w)).
Proof. unfold advanced. simpl. split; [reflexivity |]. split; [lia | reflexivity]. Qed.

Lemma read_attempt_step (command a : Z) (w : world) :
  read_ready command a w ->
  snd (read_attempt w) = read_result command (oracle w (clock w)) /\
  read_ready command a (fst (read_attempt w)) /\
  advanced (EvWriteThenReadinto a [command] 4) 1 w (fst (read_attempt w)).
Proof.
  intros (Ha & t & Ht & Hb). explode t Ht.
  unfold read_attempt, bind, i2c_write_then_readinto, read_result.
  rewrite Hb, Ha.
  change (slice _ 1 2) with [command].
  destruct (oracle w (clock w)) as [e | rx].
  - cbn [fst snd]. split; [reflexivity |]. split; [| apply advanced_one'].
    split; [exact Ha |]. eexists. split; [| exact Hb]. reflexivity.
  - destruct (fill_4 rx) as (f0 & f1 & f2 & f3 & Hf).
    change (7 - 3)%nat with 4%nat. rewrite Hf.
    unfold buf_item, slice, splice, raise, ret.
    cbn [buf set_buf tick log take drop length Nat.add Nat.sub app lookup
         list_lookup default nth id].
    destruct (negb (_generate_crc [22; command; 23; f0; f1] =? f2));
      cbn [fst snd];
      (split; [reflexivity |]; split; [| apply advanced_one];
       split; [exact Ha |]; eexists; split; [| reflexivity]; reflexivity).
Qed.

Lemma write_attempt_step (command data a : Z) (w : world) :
  write_ready command data a w ->
  snd (write_attempt w) = write_result (oracle w (clock w)) /\
  write_ready command data a (fst (write_attempt w)) /\
  advanced (EvWrite a (wire_frame command data)) 1 w (fst (write_attempt w)).
Proof.
  intros (Ha & t & Ht & Hb). explode t Ht.
  unfold write_attempt, i2c_write, write_result.
  rewrite Hb, Ha.
  change (slice _ 1 5) with (wire_frame command data).
  destruct (oracle w (clock w)) as [e | rx]; cbn [fst snd];
    (split; [reflexivity |]; split; [| apply advanced_one'];
     split; [exact Ha |]; eexists; split; [| exact Hb]; reflexivity).
Qed.

(** ** The transactions up to their loops *)

Lemma bind_ok {A B : Type} (m : M A) (k : A -> M B) (w w' : world) (a : A) :
  m w = (w', Ok a) -> bind m k w = k a w'.
Proof. intros H. unfold bind. rewrite H. reflexivity. Qed.

Lemma bind_raise {A B : Type} (m : M A) (k : A -> M B) (w w' : world) (e : exn) :
  m w = (w', Raise e) -> bind m k w = (w', Raise e).
Proof. intros H. unfold bind. rewrite H. reflexivity. Qed.

Lemma buf_store_ok (i : nat) (v : Z) (w : world) :
  0 <= v < 256 -> buf_store i v w = (set_buf (<[i := v]> (buf w)) w, Ok tt).
Proof. intros Hv. unfold buf_store. apply is_byte_true in Hv. rewrite Hv. reflexivity. Qed.

Lemma read_word_unfold (command : Z) (w : world) :
  wf w -> 0 <= command < 256 ->
  let w0 := set_buf (0x16 :: command :: 0x17 :: drop 3 (buf w)) w in
  _read_word command w = retry_loop (seq 0 LC709203F_I2C_RETRY_COUNT) read_attempt w0 /\
  read_ready command (device_address w) w0.
Proof.
  intros Hwf Hc. unfold wf in Hwf.
  destruct (buf w) as [| b0 l] eqn:Hb; [discriminate Hwf |].
  explode l Hwf.
  unfold _read_word.
  generalize (retry_loop (seq 0 LC709203F_I2C_RETRY_COUNT) read_attempt).
  intros loop.
  rewrite (bind_ok _ _ _ _ _ (buf_store_ok 0 (LC709203F_I2CADDR_DEFAULT * 2) w ltac:(unfold LC709203F_I2CADDR_DEFAULT; lia))).
  rewrite (bind_ok _ _ _ _ _ (buf_store_ok 1 command _ Hc)).
  cbn [buf set_buf]. rewrite Hb.
  cbn [insert list_insert drop].
  erewrite bind_ok by (exact (buf_store_ok 2 0x17 _ ltac:(lia))).
  unfold set_buf. cbn [buf oracle clock device_address trace insert list_insert].
  change (LC709203F_I2CADDR_DEFAULT * 2) with 0x16.
  split; [reflexivity |].
  split; [reflexivity |]. eexists. split; [| reflexivity]. reflexivity.
Qed.

Lemma write_word_unfold (command data : Z) (w : world) :
  wf w -> 0 <= command < 256 ->
  let w0 := set_buf (0x16 :: wire_frame command data ++ drop 5 (buf w)) w in
  _write_word command data w =
    (retry_loop (seq 0 LC709203F_I2C_RETRY_COUNT) write_attempt >> ret tt) w0 /\
  write_ready command data (device_address w) w0.
Proof.
  intros Hwf Hc. unfold wf in Hwf.
  destruct (buf w) as [| b0 l] eqn:Hb; [discriminate Hwf |].
  explode l Hwf.
  unfold _write_word.
  generalize (retry_loop (seq 0 LC709203F_I2C_RETRY_COUNT) write_attempt >> ret tt).
  intros loop.
  rewrite (bind_ok _ _ _ _ _ (buf_store_ok 0 (LC709203F_I2CADDR_DEFAULT * 2) w ltac:(unfold LC709203F_I2CADDR_DEFAULT; lia))).
  rewrite (bind_ok _ _ _ _ _ (buf_store_ok 1 command _ Hc)).
  rewrite (bind_ok _ _ _ _ _ (buf_store_ok 2 _ _ (land_0xFF_byte data))).
  rewrite (bind_ok _ _ _ _ _ (buf_store_ok 3 _ _ (land_0xFF_byte (Z.shiftr data 8)))).
  erewrite bind_ok by (apply buf_store_ok, generate_crc_byte).
  unfold set_buf, slice, wire_frame.
  cbn [buf oracle clock device_address trace]. rewrite Hb.
  cbn [insert list_insert take drop Nat.sub app].
  change (LC709203F_I2CADDR_DEFAULT * 2) with 0x16.
  split; [reflexivity |].
  split; [reflexivity |]. eexists. split; [| reflexivity]. reflexivity.
Qed.

(** ** Outcomes of the bus and results of an attempt *)

Lemma read_fails_result (command : Z) (o : outcome) (e : exn) :
  read_fails command o e ->
  exists msg, e = OSError msg /\ read_result command o = Raise (OSError msg).
Proof.
  intros [(Ho & msg & He) | ((d0 & d1 & c & x & Ho & Hb & Hc) & He)]; subst.
  - exists msg. split; reflexivity.
  - exists "CRC failure on reading word". split; [reflexivity |].
    unfold read_result. rewrite fill_4_bytes by exact Hb. cbn [nth].
    destruct (Z.eqb_spec (_generate_crc [22; command; 23; d0; d1]) c) as [Heq | Hne].
    + congruence.
    + reflexivity.
Qed.

Lemma crc_match_result (command d0 d1 : Z) (o : outcome) :
  crc_match command d0 d1 o -> read_result command o = Ok (d0 + 256 * d1).
Proof.
  intros (x & Ho & Hb). subst o.
  assert (Hd0 : 0 <= d0 < 256) by (inversion Hb; assumption).
  assert (Hall : bytes [d0; d1; _generate_crc [22; command; 23; d0; d1]; x]).
  { unfold bytes in *.
    inversion Hb as [| ? ? H0 Hb1]; subst.
    inversion Hb1 as [| ? ? H1 Hb2]; subst.
    constructor; [exact H0 |]. constructor; [exact H1 |].
    constructor; [apply generate_crc_byte | exact Hb2]. }
  unfold read_result. rewrite fill_4_bytes by exact Hall. cbn [nth].
  rewrite Z.eqb_refl. cbn [negb].
  rewrite lor_shiftl_8 by exact Hd0. reflexivity.
Qed.

Lemma bus_error_result (o : outcome) (e : exn) :
  bus_error o e -> exists msg, e = OSError msg /\ write_result o = Raise (OSError msg).
Proof. intros (Ho & msg & He). subst. exists msg. split; reflexivity. Qed.

(** ** The whole transactions *)

(** [k] failed read attempts, then a response with a matching CRC. *)
Lemma read_word_succeeds (k : nat) (w : world) (command d0 d1 : Z) :
  wf w -> 0 <= command < 256 -> (k < 10)%nat ->
  (forall i, (i < k)%nat ->
     exists e, read_fails command (oracle w (clock w + i)%nat) e) ->
  crc_match command d0 d1 (oracle w (clock w + k)%nat) ->
  exists w',
    _read_word command w = (w', Ok (Some (d0 + 256 * d1))) /\
    wf w' /\ device_address w' = device_address w /\
    advanced (EvWriteThenReadinto (device_address w) [command] 4) (S k) w w'.
Proof.
  intros Hwf Hc Hk Hfail Hok.
  destruct (read_word_unfold command w Hwf Hc) as (Heq & Hready).
  rewrite Heq.
  destruct (retry_succeeds read_attempt (read_result command)
              (read_ready command (device_address w))
              (EvWriteThenReadinto (device_address w) [command] 4)
              (read_attempt_step command (device_address w))
              k LC709203F_I2C_RETRY_COUNT 0%nat _ (d0 + 256 * d1)
              eq_refl Hk Hready)
    as (w' & Hrun & Hready' & Hadv).
  - intros i Hi. destruct (Hfail i Hi) as [e He].
    destruct (read_fails_result _ _ _ He) as (msg & _ & Hr).
    exists msg. exact Hr.
  - apply crc_match_result. exact Hok.
  - exists w'. split; [exact Hrun |].
    split; [exact (read_ready_wf _ _ _ Hready') |].
    split; [exact (proj1 Hready') | exact Hadv].
Qed.

(** Ten failed read attempts. *)
Lemma read_word_exhausted (w : world) (command : Z) (e : exn) :
  wf w -> 0 <= command < 256 ->
  (forall i, (i < 9)%nat ->
     exists e', read_fails command (oracle w (clock w + i)%nat) e') ->
  read_fails command (oracle w (clock w + 9)%nat) e ->
  exists w',
    _read_word command w = (w', Raise e) /\
    wf w' /\ device_address w' = device_address w /\
    advanced (EvWriteThenReadinto (device_address w) [command] 4) 10 w w'.
Proof.
  intros Hwf Hc Hfail Hlast.
  destruct (read_word_unfold command w Hwf Hc) as (Heq & Hready).
  rewrite Heq.
  destruct (read_fails_result _ _ _ Hlast) as (msg & -> & Hr).
  destruct (retry_exhausted read_attempt (read_result command)
              (read_ready command (device_address w))
              (EvWriteThenReadinto (device_address w) [command] 4)
              (read_attempt_step command (device_address w))
              9 0%nat _ msg eq_refl Hready)
    as (w' & Hrun & Hready' & Hadv).
  - intros i Hi. destruct (Hfail i Hi) as [e He].
    destruct (read_fails_result _ _ _ He) as (m & _ & Hm).
    exists m. exact Hm.
  - exact Hr.
  - exists w'. split; [exact Hrun |].
    split; [exact (read_ready_wf _ _ _ Hready') |].
    split; [exact (proj1 Hready') | exact Hadv].
Qed.

(** [k] failed write attempts, then one that completes. *)
Lemma write_word_succeeds (k : nat) (w : world) (command data : Z) :
  wf w -> 0 <= command < 256 -> (k < 10)%nat ->
  (forall i, (i < k)%nat ->
     exists e, bus_error (oracle w (clock w + i)%nat) e) ->
  (exists rx, oracle w (clock w + k)%nat = BusOk rx) ->
  exists w',
    _write_word command data w = (w', Ok tt) /\
    wf w' /\ device_address w' = device_address w /\
    advanced (EvWrite (device_address w) (wire_frame command data)) (S k) w w'.
Proof.
  intros Hwf Hc Hk Hfail [rx Hok].
  destruct (write_word_unfold command data w Hwf Hc) as (Heq & Hready).
  rewrite Heq.
  destruct (retry_succeeds write_attempt write_result
              (write_ready command data (device_address w))
              (EvWrite (device_address w) (wire_frame command data))
              (write_attempt_step command data (device_address w))
              k LC709203F_I2C_RETRY_COUNT 0%nat _ tt
              eq_refl Hk Hready)
    as (w' & Hrun & Hready' & Hadv).
  - intros i Hi. destruct (Hfail i Hi) as [e He].
    destruct (bus_error_result _ _ He) as (msg & _ & Hr).
    exists msg. exact Hr.
  - cbn [oracle clock set_buf]. rewrite Hok. reflexivity.
  - exists w'. split; [rewrite (bind_ok _ _ _ _ _ Hrun); reflexivity |].
    split; [exact (write_ready_wf _ _ _ _ Hready') |].
    split; [exact (proj1 Hready') | exact Hadv].
Qed.

(** Ten failed write attempts. *)
Lemma write_word_exhausted (w : world) (command data : Z) (e : exn) :
  wf w -> 0 <= command < 256 ->
  (forall i, (i < 9)%nat ->
     exists e', bus_error (oracle w (clock w + i)%nat) e') ->
  bus_error (oracle w (clock w + 9)%nat) e ->
  exists w',
    _write_word command data w = (w', Raise e) /\
    wf w' /\ device_address w' = device_address w /\
    advanced (EvWrite (device_address w) (wire_frame command data)) 10 w w'.
Proof.
  intros Hwf Hc Hfail Hlast.
  destruct (write_word_unfold command data w Hwf Hc) as (Heq & Hready).
  rewrite Heq.
  destruct (bus_error_result _ _ Hlast) as (msg & -> & Hr).
  destruct (retry_exhausted write_attempt write_result
              (write_ready command data (device_address w))
              (EvWrite (device_address w) (wire_frame command data))
              (write_attempt_step command data (device_address w))
              9 0%nat _ msg eq_refl Hready)
    as (w' & Hrun & Hready' & Hadv).
  - intros i Hi. destruct (Hfail i Hi) as [e He].
    destruct (bus_error_result _ _ He) as (m & _ & Hm).
    exists m. exact Hm.
  - exact Hr.
  - exists w'. split; [rewrite (bind_raise _ _ _ _ _ Hrun); reflexivity |].
    split; [exact (write_ready_wf _ _ _ _ Hready') |].
    split; [exact (proj1 Hready') | exact Hadv].
Qed.

Lemma fst_bind_ret {A : Type} (m : M A) (w : world) :
  fst ((m >> ret tt) w) = fst (m w).
Proof. unfold bind, ret. destruct (m w) as [w' [a | e]]; reflexivity. Qed.

(** Whatever the bus does, a read makes between one and ten transfers
    and leaves the read header in the scratch buffer. *)
Lemma read_word_total (w : world) (command : Z) :
  wf w -> 0 <= command < 256 ->
  exists j, (1 <= j <= 10)%nat /\
    advanced (EvWriteThenReadinto (device_address w) [command] 4) j w
      (fst (_read_word command w)) /\
    read_ready command (device_address w) (fst (_read_word command w)).
Proof.
  intros Hwf Hc.
  destruct (read_word_unfold command w Hwf Hc) as (Heq & Hready).
  rewrite Heq.
  destruct (retry_advances read_attempt (read_result command)
              (read_ready command (device_address w))
              (EvWriteThenReadinto (device_address w) [command] 4)
              (read_attempt_step command (device_address w))
              LC709203F_I2C_RETRY_COUNT 0%nat _ Hready)
    as (j & Hj & Hpos & Hadv & Hready').
  exists j. unfold LC709203F_I2C_RETRY_COUNT in *.
  split; [lia |]. split; [exact Hadv | exact Hready'].
Qed.

(** Whatever the bus does, a write makes between one and ten transfers
    of the same four bytes and leaves the frame in the scratch buffer. *)
Lemma write_word_total (w : world) (command data : Z) :
  wf w -> 0 <= command < 256 ->
  exists j, (1 <= j <= 10)%nat /\
    advanced (EvWrite (device_address w) (wire_frame command data)) j w
      (fst (_write_word command data w)) /\
    write_ready command data (device_address w) (fst (_write_word command data w)).
Proof.
  intros Hwf Hc.
  destruct (write_word_unfold command data w Hwf Hc) as (Heq & Hready).
  rewrite Heq, fst_bind_ret.
  destruct (retry_advances write_attempt write_result
              (write_ready command data (device_address w))
              (EvWrite (device_address w) (wire_frame command data))
              (write_attempt_step command data (device_address w))
              LC709203F_I2C_RETRY_COUNT 0%nat _ Hready)
    as (j & Hj & Hpos & Hadv & Hready').
  exists j. unfold LC709203F_I2C_RETRY_COUNT in *.
  split; [lia |]. split; [exact Hadv | exact Hready'].
Qed.

(** A write whose first attempt gets through. *)
Lemma write_ok_step (w : world) (command data : Z) :
  wf w -> 0 <= command < 256 ->
  (exists rx, oracle w (clock w) = BusOk rx) ->
  exists w',
    _write_word command data w = (w', Ok tt) /\
    wf w' /\ device_address w' = device_address w /\
    oracle w' = oracle w /\ clock w' = S (clock w) /\
    trace w' = trace w ++ [EvWrite (device_address w) (wire_frame command data)].
Proof.
  intros Hwf Hc Hok.
  destruct (write_word_succeeds 0 w command data Hwf Hc ltac:(lia))
    as (w' & Hrun & Hwf' & Ha' & (Ho' & Hc' & Ht')).
  - intros i Hi. lia.
  - rewrite Nat.add_0_r. exact Hok.
  - exists w'. repeat (split; [assumption |]). split; [lia | exact Ht'].
Qed.

(** ** Simulated devices used in the examples *)

Lemma device_wf (i2c_bus : nat -> outcome) (address : Z) : wf (device i2c_bus address).
Proof. reflexivity. Qed.

Lemma retry_loop_not_none {A : Type} (body : M A) (n : nat) :
  forall (s : nat) (w : world),
    (s + S n = LC709203F_I2C_RETRY_COUNT)%nat ->
    snd (retry_loop (seq s (S n)) body w) <> Ok None.
Proof.
  induction n as [| n IH]; intros s w Hs.
  - cbn [seq retry_loop].
    destruct (body w) as [w1 [a | [m | m | m]]]; cbn [snd]; try discriminate.
    last_attempt_case; cbn [snd]; [discriminate |].
    unfold LC709203F_I2C_RETRY_COUNT in *. lia.
  - cbn [seq retry_loop].
    destruct (body w) as [w1 [a | [m | m | m]]]; cbn [snd]; try discriminate.
    last_attempt_case; cbn [snd]; [discriminate |].
    apply (IH (S s) w1). lia.
Qed.

(** ** Reading a word *)

Ltac bytes_auto := unfold bytes; repeat (constructor; [lia |]); constructor.

Lemma generate_crc_spec (data : list Z) : _generate_crc data = Spec.crc8 data.
Proof. unfold _generate_crc, Spec.crc8. apply foldl_crc8_from. Qed.

Lemma fill_bytes (n : nat) (rx : list Z) : bytes (fill n rx).
Proof.
  unfold bytes, fill. apply Forall_take, Forall_app_2.
  - apply Forall_forall. intros v Hin. apply list_elem_of_In, in_map_iff in Hin.
    destruct Hin as (y & <- & _). apply Z.mod_pos_bound. lia.
  - apply Forall_replicate. lia.
Qed.

Lemma advanced_zero (ev : event) (w : world) : advanced ev 0 w w.
Proof.
  unfold advanced. cbn [replicate]. rewrite app_nil_r.
  split; [reflexivity |]. split; [lia | reflexivity].
Qed.

Section RetryReturns.
Context {A : Type}.
Variable body : M A.
Variable attempt : outcome -> result A.
Variable Inv : world -> Prop.
Variable ev : event.

Hypothesis body_step : forall w, Inv w ->
  snd (body w) = attempt (oracle w (clock w)) /\
  Inv (fst (body w)) /\
  advanced ev 1 w (fst (body w)).

(** A loop that returns a value returns the result of one run of its
    body, made after [k] earlier runs. *)
Lemma retry_returns_inv (n : nat) :
  forall (s : nat) (w w' : world) (a : A),
    Inv w ->
    retry_loop (seq s n) body w = (w', Ok (Some a)) ->
    exists k wk,
      (k < n)%nat /\ Inv wk /\ advanced ev k w wk /\ body wk = (w', Ok a).
Proof.
  induction n as [| n IH]; intros s w w' a HI Hrun.
  - cbn [seq retry_loop] in Hrun. discriminate Hrun.
  - cbn [seq retry_loop] in Hrun.
    destruct (body_step w HI) as (_ & HI1 & Hadv).
    destruct (body w) as [w1 [a0 | [m | m | m]]] eqn:Hb; cbn [fst] in *;
      try discriminate Hrun.
    + injection Hrun as -> ->.
      exists 0%nat, w. split; [lia |]. split; [exact HI |].
      split; [apply advanced_zero | exact Hb].
    + revert Hrun. last_attempt_case; intros Hrun; [discriminate Hrun |].
      destruct (IH (S s) w1 w' a HI1 Hrun) as (k & wk & Hk & HIk & Hadvk & Hbk).
      exists (S k), wk. split; [lia |]. split; [exact HIk |].
      split; [exact (advanced_step ev k w w1 wk Hadv Hadvk) | exact Hbk].
Qed.
End RetryReturns.

(** A read attempt that returns has found a matching CRC in the
    response it has just stored. *)
Lemma read_attempt_returns (command a : Z) (w w' : world) (v : Z) :
  read_ready command a w ->
  read_attempt w = (w', Ok v) ->
  exists rx d0 d1 c x,
    oracle w (clock w) = BusOk rx /\ fill 4 rx = [d0; d1; c; x] /\
    take 7 (buf w') = [0x16; command; 0x17; d0; d1; c; x] /\
    _generate_crc [0x16; command; 0x17; d0; d1] = c /\
    v = Z.lor (Z.shiftl d1 8) d0 /\
    clock w' = S (clock w).
Proof.
  intros (Ha & t & Ht & Hb) Hrun. explode t Ht.
  unfold read_attempt, bind, i2c_write_then_readinto in Hrun.
  rewrite Hb in Hrun.
  destruct (oracle w (clock w)) as [e | rx]; [discriminate Hrun |].
  destruct (fill_4 rx) as (f0 & f1 & f2 & f3 & Hf).
  change (7 - 3)%nat with 4%nat in Hrun. rewrite Hf in Hrun.
  unfold buf_item, slice, splice, raise, ret in Hrun.
  cbn [buf set_buf tick log take drop length Nat.add Nat.sub app lookup
       list_lookup default nth id] in Hrun.
  destruct (Z.eqb_spec (_generate_crc [22; command; 23; f0; f1]) f2) as [Hcrc | Hcrc];
    cbn [negb] in Hrun; [| discriminate Hrun].
  injection Hrun as <- <-.
  exists rx, f0, f1, f2, f3. cbn [buf set_buf clock tick log take].
  repeat (split; [reflexivity || assumption |]). reflexivity.
Qed.

(** Every word [_read_word] returns is the little-endian word of a
    response whose third byte is the CRC-8 of the five bytes before it. *)
Lemma read_word_returns_inv (w w' : world) (command v : Z) :
  wf w -> 0 <= command < 256 ->
  _read_word command w = (w', Ok (Some v)) ->
  exists k rx d0 d1 c x,
    (k < 10)%nat /\ clock w' = (clock w + S k)%nat /\
    oracle w (clock w + k)%nat = BusOk rx /\ fill 4 rx = [d0; d1; c; x] /\
    take 7 (buf w') = [0x16; command; 0x17; d0; d1; c; x] /\
    c = Spec.crc8 [0x16; command; 0x17; d0; d1] /\
    v = d0 + 256 * d1 /\ v = Z.lor (Z.shiftl d1 8) d0 /\ 0 <= v < 65536.
Proof.
  intros Hwf Hc Hrun.
  destruct (read_word_unfold command w Hwf Hc) as (Heq & Hready).
  rewrite Heq in Hrun.
  destruct (retry_returns_inv read_attempt (read_result command)
              (read_ready command (device_address w))
              (EvWriteThenReadinto (device_address w) [command] 4)
              (read_attempt_step command (device_address w))
              LC709203F_I2C_RETRY_COUNT 0%nat _ w' v Hready Hrun)
    as (k & wk & Hk & Hreadyk & (Hok & Hck & _) & Hbk).
  destruct (read_attempt_returns command (device_address w) wk w' v Hreadyk Hbk)
    as (rx & d0 & d1 & c & x & Horacle & Hfill & Hbuf & Hcrc & Hv & Hclk).
  cbn [oracle clock set_buf] in Hok, Hck.
  pose proof (fill_bytes 4 rx) as Hbytes. rewrite Hfill in Hbytes.
  unfold bytes in Hbytes.
  inversion Hbytes as [| ? ? B0 Hb1]; subst.
  inversion Hb1 as [| ? ? B1 _]; subst.
  exists k, rx, d0, d1, (_generate_crc [22; command; 23; d0; d1]), x.
  unfold LC709203F_I2C_RETRY_COUNT in Hk.
  split; [exact Hk |]. split; [lia |].
  split; [rewrite <- Hok, <- Hck; exact Horacle |].
  split; [exact Hfill |]. split; [exact Hbuf |].
  split; [apply generate_crc_spec |].
  rewrite lor_shiftl_8 by exact B0.
  split; [reflexivity |]. split; [reflexivity | lia].
Qed.

(** C1: for every command byte, [_read_word] accepts a response only if
    the CRC-8 of the five leading buffer bytes (the header 0x16, command,
    0x17 and the two data bytes) equals the sixth buffer byte, and then
    returns the 16-bit little-endian word of the two data bytes.
    - Whenever a word is returned, it is [d0 + 256 * d1 = (d1 << 8) | d0]
      for the four bytes [d0; d1; c; x] that the last bus transfer of
      the call stored after the header, and [c] is the CRC-8 (as the
      specification defines it) of header and data.
    - When a transfer succeeds after [k] failed attempts with a matching
      CRC byte, the word is returned after that transfer.
    - A transfer whose CRC byte does not match is never the one whose
      word is returned, whichever attempt it is. *)
Theorem read_word_checks_crc_little_endian (w : world) (command : Z) :
  wf w -> 0 <= command < 256 ->
  (forall w' v,
     _read_word command w = (w', Ok (Some v)) ->
     exists k rx d0 d1 c x,
       (k < 10)%nat /\ clock w' = (clock w + S k)%nat /\
       oracle w (clock w + k)%nat = BusOk rx /\ fill 4 rx = [d0; d1; c; x] /\
       take 7 (buf w') = [0x16; command; 0x17; d0; d1; c; x] /\
       c = Spec.crc8 [0x16; command; 0x17; d0; d1] /\
       v = d0 + 256 * d1 /\ v = Z.lor (Z.shiftl d1 8) d0 /\ 0 <= v < 65536) /\
  (forall k d0 d1 c x,
     (k < 10)%nat -> bytes [d0; d1; c; x] ->
     (forall i, (i < k)%nat ->
        (exists e, bus_error (oracle w (clock w + i)%nat) e) \/
        rejected_by_crc8 command (oracle w (clock w + i)%nat)) ->
     oracle w (clock w + k)%nat = BusOk [d0; d1; c; x] ->
     c = Spec.crc8 [0x16; command; 0x17; d0; d1] ->
     exists w',
       _read_word command w = (w', Ok (Some (d0 + 256 * d1))) /\
       take 6 (buf w') = [0x16; command; 0x17; d0; d1; c] /\
       clock w' = (clock w + S k)%nat) /\
  (forall k d0 d1 c x,
     (k < 10)%nat -> bytes [d0; d1; c; x] ->
     oracle w (clock w + k)%nat = BusOk [d0; d1; c; x] ->
     c <> Spec.crc8 [0x16; command; 0x17; d0; d1] ->
     forall w' r,
       _read_word command w = (w', Ok r) -> clock w' <> (clock w + S k)%nat).
Proof.
  intros Hwf Hc. split; [| split].
  - intros w' v Hrun. exact (read_word_returns_inv w w' command v Hwf Hc Hrun).
  - intros k d0 d1 c x Hk Hb Hfail Horacle Hcrc.
    assert (Hd : bytes [d0; d1; x]).
    { unfold bytes in *.
      inversion Hb as [| ? ? H0 Hb1]; subst.
      inversion Hb1 as [| ? ? H1 Hb2]; subst.
      inversion Hb2 as [| ? ? H2 Hb3]; subst.
      constructor; [exact H0 |]. constructor; [exact H1 | exact Hb3]. }
    destruct (read_word_succeeds k w command d0 d1 Hwf Hc Hk)
      as (w' & Hrun & _ & _ & (_ & Hclk & _)).
    + intros i Hi. destruct (Hfail i Hi) as [[e He] | (e0 & e1 & ec & ex & Ho & Hbe & Hne)].
      * exists e. left. exact He.
      * exists (OSError "CRC failure on reading word"). right.
        split; [| reflexivity]. exists e0, e1, ec, ex.
        split; [exact Ho |]. split; [exact Hbe |].
        rewrite generate_crc_spec. exact Hne.
    + exists x. rewrite Horacle, generate_crc_spec, <- Hcrc. split; [reflexivity | exact Hd].
    + exists w'. split; [exact Hrun |]. split; [| exact Hclk].
      destruct (read_word_returns_inv w w' command _ Hwf Hc Hrun)
        as (k' & rx & e0 & e1 & ec & ex & _ & Hclk' & Ho' & Hfill & Hbuf & _).
      assert (k' = k) by lia. subst k'.
      rewrite Horacle in Ho'. injection Ho' as <-.
      rewrite (fill_4_bytes _ _ _ _ Hb) in Hfill. injection Hfill as <- <- <- <-.
      apply (f_equal (take 6)) in Hbuf. rewrite take_take in Hbuf. exact Hbuf.
  - intros k d0 d1 c x Hk Hb Horacle Hcrc w' r Hrun Hclk.
    destruct r as [v |].
    + destruct (read_word_returns_inv w w' command v Hwf Hc Hrun)
        as (k' & rx & e0 & e1 & ec & ex & _ & Hclk' & Ho' & Hfill & _ & Hec & _).
      assert (k' = k) by lia. subst k'.
      rewrite Horacle in Ho'. injection Ho' as <-.
      rewrite (fill_4_bytes _ _ _ _ Hb) in Hfill. injection Hfill as <- <- <- <-.
      contradiction.
    + destruct (read_word_unfold command w Hwf Hc) as (Heq & _).
      rewrite Heq in Hrun.
      apply (retry_loop_not_none read_attempt 9 0
               (set_buf (22 :: command :: 23 :: drop 3 (buf w)) w) eq_refl).
      change (seq 0 10) with (seq 0 LC709203F_I2C_RETRY_COUNT).
      rewrite Hrun. reflexivity.
Qed.

Lemma read_word_checks_crc_little_endian_witness :
  exists w',
    _read_word LC709203F_CMD_CELLVOLTAGE (device bus_3700 0x0B) = (w', Ok (Some 3700)) /\
    take 6 (buf w') = [0x16; 0x09; 0x17; 0x74; 0x0E; 183] /\
    clock w' = 1%nat.
Proof.
  destruct (read_word_checks_crc_little_endian
              (device bus_3700 0x0B) LC709203F_CMD_CELLVOLTAGE)
    as (_ & Hgood & _).
  - apply device_wf.
  - unfold LC709203F_CMD_CELLVOLTAGE. lia.
  - apply (Hgood 0%nat 0x74 0x0E 183 0).
    + lia.
    + bytes_auto.
    + intros i Hi. lia.
    + reflexivity.
    + vm_compute. reflexivity.
Defined.

(** ** The retry bound *)

(** C2: every read-word and write-word transaction makes at least one
    and at most ten attempts, whatever the bus does.  When the first nine
    attempts fail (for a read: the bus raises [OSError] or the CRC check
    fails; for a write: the bus raises [OSError]) and the tenth succeeds,
    the operation succeeds after exactly ten transfers; when all ten fail,
    the error of the tenth attempt is raised to the caller after exactly
    ten transfers, so no eleventh attempt is made. *)
Theorem retry_bound_ten_attempts (w : world) (command data : Z) :
  wf w -> 0 <= command < 256 ->
  let rd := EvWriteThenReadinto (device_address w) [command] 4 in
  let wr := EvWrite (device_address w) (wire_frame command data) in
  (exists j, (1 <= j <= 10)%nat /\ advanced rd j w (fst (_read_word command w))) /\
  (exists j, (1 <= j <= 10)%nat /\ advanced wr j w (fst (_write_word command data w))) /\
  (forall d0 d1,
     (forall i, (i < 9)%nat ->
        exists e, read_fails command (oracle w (clock w + i)%nat) e) ->
     crc_match command d0 d1 (oracle w (clock w + 9)%nat) ->
     exists w', _read_word command w = (w', Ok (Some (d0 + 256 * d1))) /\
                advanced rd 10 w w') /\
  (forall e,
     (forall i, (i < 9)%nat ->
        exists e', read_fails command (oracle w (clock w + i)%nat) e') ->
     read_fails command (oracle w (clock w + 9)%nat) e ->
     exists w', _read_word command w = (w', Raise e) /\ advanced rd 10 w w') /\
  ((forall i, (i < 9)%nat ->
      exists e, bus_error (oracle w (clock w + i)%nat) e) ->
   (exists rx, oracle w (clock w + 9)%nat = BusOk rx) ->
   exists w', _write_word command data w = (w', Ok tt) /\ advanced wr 10 w w') /\
  (forall e,
     (forall i, (i < 9)%nat ->
        exists e', bus_error (oracle w (clock w + i)%nat) e') ->
     bus_error (oracle w (clock w + 9)%nat) e ->
     exists w', _write_word command data w = (w', Raise e) /\ advanced wr 10 w w').
Proof.
  intros Hwf Hc rd wr.
  split; [| split; [| split; [| split; [| split]]]].
  - destruct (read_word_total w command Hwf Hc) as (j & Hj & Hadv & _).
    exists j. split; assumption.
  - destruct (write_word_total w command data Hwf Hc) as (j & Hj & Hadv & _).
    exists j. split; assumption.
  - intros d0 d1 Hfail Hok.
    destruct (read_word_succeeds 9 w command d0 d1 Hwf Hc ltac:(lia) Hfail Hok)
      as (w' & Hrun & _ & _ & Hadv).
    exists w'. split; assumption.
  - intros e Hfail Hlast.
    destruct (read_word_exhausted w command e Hwf Hc Hfail Hlast)
      as (w' & Hrun & _ & _ & Hadv).
    exists w'. split; assumption.
  - intros Hfail Hok.
    destruct (write_word_succeeds 9 w command data Hwf Hc ltac:(lia) Hfail Hok)
      as (w' & Hrun & _ & _ & Hadv).
    exists w'. split; assumption.
  - intros e Hfail Hlast.
    destruct (write_word_exhausted w command data e Hwf Hc Hfail Hlast)
      as (w' & Hrun & _ & _ & Hadv).
    exists w'. split; assumption.
Qed.

Lemma nine_nacks (i : nat) :
  (i < 9)%nat -> bus_nine_failures i = nack.
Proof.
  intros Hi. do 9 (destruct i as [| i]; [reflexivity |]). lia.
Qed.

Lemma nack_bus_error : bus_error nack (OSError "[Errno 19] No such device").
Proof. split; [reflexivity |]. eexists. reflexivity. Qed.

Lemma retry_bound_ten_attempts_witness :
  exists w',
    _read_word LC709203F_CMD_CELLVOLTAGE (device bus_nine_failures 0x0B)
      = (w', Ok (Some 3700)) /\
    clock w' = 10%nat.
Proof.
  destruct (retry_bound_ten_attempts
              (device bus_nine_failures 0x0B) LC709203F_CMD_CELLVOLTAGE 0)
    as (_ & _ & Hgood & _).
  - apply device_wf.
  - unfold LC709203F_CMD_CELLVOLTAGE. lia.
  - destruct (Hgood 0x74 0x0E) as (w' & Hrun & Hadv).
    + intros i Hi. exists (OSError "[Errno 19] No such device"). left.
      cbn [oracle clock device Nat.add]. rewrite (nine_nacks i Hi).
      exact nack_bus_error.
    + exists 0. split; [vm_compute; reflexivity | bytes_auto].
    + exists w'. split; [exact Hrun |].
      destruct Hadv as (_ & Hclk & _). exact Hclk.
Defined.

(** ** CRC mismatches and the retry budget *)

(** C4: in a read, a response whose CRC byte does not match is one
    failed attempt like a bus error.  After [k] failed attempts, each
    either a CRC mismatch or a bus [OSError] in any order, a good response
    is returned after exactly [k + 1] transfers; and when nine such
    failures are followed by a tenth, the read raises after exactly ten
    transfers: the CRC failure [OSError] when the tenth was a mismatch,
    the bus's [OSError] when it was a bus error. *)
Theorem crc_mismatch_consumes_retry_budget (w : world) (command : Z) (k : nat) :
  wf w -> 0 <= command < 256 -> (k <= 9)%nat ->
  (forall i, (i < k)%nat ->
     crc_mismatch command (oracle w (clock w + i)%nat) \/
     exists e, bus_error (oracle w (clock w + i)%nat) e) ->
  let rd := EvWriteThenReadinto (device_address w) [command] 4 in
  (forall d0 d1,
     crc_match command d0 d1 (oracle w (clock w + k)%nat) ->
     exists w', _read_word command w = (w', Ok (Some (d0 + 256 * d1))) /\
                advanced rd (S k) w w') /\
  (k = 9%nat ->
   crc_mismatch command (oracle w (clock w + 9)%nat) ->
   exists w', _read_word command w =
                (w', Raise (OSError "CRC failure on reading word")) /\
              advanced rd 10 w w') /\
  (k = 9%nat ->
   forall e, bus_error (oracle w (clock w + 9)%nat) e ->
   exists w', _read_word command w = (w', Raise e) /\ advanced rd 10 w w').
Proof.
  intros Hwf Hc Hk Hmix rd.
  assert (Hfail : forall i, (i < k)%nat ->
            exists e, read_fails command (oracle w (clock w + i)%nat) e).
  { intros i Hi. destruct (Hmix i Hi) as [Hcrc | [e He]].
    - exists (OSError "CRC failure on reading word"). right. split; [exact Hcrc | reflexivity].
    - exists e. left. exact He. }
  split; [| split].
  - intros d0 d1 Hok.
    destruct (read_word_succeeds k w command d0 d1 Hwf Hc ltac:(lia) Hfail Hok)
      as (w' & Hrun & _ & _ & Hadv).
    exists w'. split; assumption.
  - intros -> Hlast.
    destruct (read_word_exhausted w command (OSError "CRC failure on reading word")
                Hwf Hc Hfail) as (w' & Hrun & _ & _ & Hadv).
    + right. split; [exact Hlast | reflexivity].
    + exists w'. split; assumption.
  - intros -> e Hlast.
    destruct (read_word_exhausted w command e Hwf Hc Hfail) as (w' & Hrun & _ & _ & Hadv).
    + left. exact Hlast.
    + exists w'. split; assumption.
Qed.

Lemma crc_mismatch_consumes_retry_budget_witness :
  exists w',
    _read_word LC709203F_CMD_CELLVOLTAGE (device bus_corrupted_once 0x0B)
      = (w', Ok (Some 3700)) /\
    clock w' = 2%nat.
Proof.
  destruct (crc_mismatch_consumes_retry_budget
              (device bus_corrupted_once 0x0B) LC709203F_CMD_CELLVOLTAGE 1)
    as (Hgood & _).
  - apply device_wf.
  - unfold LC709203F_CMD_CELLVOLTAGE. lia.
  - lia.
  - intros i Hi. destruct i as [| i]; [| lia]. left.
    exists 0x74, 0x0E, 0, 0. split; [reflexivity |]. split; [bytes_auto |].
    vm_compute. discriminate.
  - destruct (Hgood 0x74 0x0E) as (w' & Hrun & Hadv).
    + exists 0. split; [vm_compute; reflexivity | bytes_auto].
    + exists w'. split; [exact Hrun |].
      destruct Hadv as (_ & Hclk & _). exact Hclk.
Defined.

(** ** Writing a word *)

Lemma mod_65536_low (data : Z) : (data mod 65536) mod 256 = data mod 256.
Proof.
  pose proof (Z.div_mod data 65536 ltac:(lia)) as H1.
  pose proof (Z.div_mod data 256 ltac:(lia)) as H2.
  pose proof (Z.mod_pos_bound data 256 ltac:(lia)) as B2.
  symmetry.
  apply (Z.mod_unique (data mod 65536) 256 (data / 256 - 256 * (data / 65536))); lia.
Qed.

Lemma mod_65536_high (data : Z) :
  ((data mod 65536) / 256) mod 256 = (data / 256) mod 256.
Proof.
  pose proof (Z.div_mod data 65536 ltac:(lia)) as H1.
  pose proof (Z.div_mod data 256 ltac:(lia)) as H2.
  pose proof (Z.mod_pos_bound data 256 ltac:(lia)) as B2.
  assert (Hq : (data mod 65536) / 256 = data / 256 - 256 * (data / 65536)).
  { symmetry.
    apply (Z.div_unique (data mod 65536) 256 _ (data mod 256)); lia. }
  rewrite Hq.
  pose proof (Z.div_mod (data / 256) 256 ltac:(lia)) as H3.
  pose proof (Z.mod_pos_bound (data / 256) 256 ltac:(lia)) as B3.
  symmetry.
  apply (Z.mod_unique _ 256 (data / 256 / 256 - data / 65536)); lia.
Qed.

(** The bytes on the wire depend on [data] only through [data mod 2^16]. *)
Lemma wire_frame_mod (command data : Z) :
  wire_frame command (data mod 65536) = wire_frame command data.
Proof.
  unfold wire_frame.
  rewrite !land_0xFF, !Z.shiftr_div_pow2 by lia. change (2 ^ 8) with 256.
  rewrite mod_65536_low, mod_65536_high. reflexivity.
Qed.

(** C10: for every integer [data], a write that gets through puts on the
    wire the command, the bytes [data & 0xFF] and [(data >> 8) & 0xFF]
    and their CRC; the two data bytes carry [data mod 2^16], and the
    frame is the one of [data mod 2^16].  The [thermistor_bconstant] and
    [low_voltage_alarm] setters pass any integer to it unchecked and so
    return normally having written the value reduced modulo 65536. *)
Theorem write_word_sends_data_mod_65536 (w : world) (command data : Z) :
  wf w -> 0 <= command < 256 ->
  (exists rx, oracle w (clock w) = BusOk rx) ->
  let lo := Z.land data 0xFF in
  let hi := Z.land (Z.shiftr data 8) 0xFF in
  lo + 256 * hi = data mod 65536 /\
  wire_frame command data = wire_frame command (data mod 65536) /\
  (exists w',
     _write_word command data w = (w', Ok tt) /\
     trace w' = trace w ++
       [EvWrite (device_address w)
          [command; lo; hi; _generate_crc [0x16; command; lo; hi]]]) /\
  (exists w',
     thermistor_bconstant_setter data w = (w', Ok tt) /\
     trace w' = trace w ++
       [EvWrite (device_address w)
          (wire_frame LC709203F_CMD_THERMISTORB (data mod 65536))]) /\
  (exists w',
     low_voltage_alarm_setter data w = (w', Ok tt) /\
     trace w' = trace w ++
       [EvWrite (device_address w)
          (wire_frame LC709203F_CMD_ALARMVOLTAGE (data mod 65536))]).
Proof.
  intros Hwf Hc Hok lo hi.
  assert (Hnow : exists rx, oracle w (clock w + 0)%nat = BusOk rx)
    by (rewrite Nat.add_0_r; exact Hok).
  assert (Hnone : forall i, (i < 0)%nat ->
            exists e, bus_error (oracle w (clock w + i)%nat) e)
    by (intros i Hi; lia).
  split; [apply split_word |].
  split; [symmetry; apply wire_frame_mod |].
  split; [| split].
  - destruct (write_word_succeeds 0 w command data Hwf Hc ltac:(lia) Hnone Hnow)
      as (w' & Hrun & _ & _ & (_ & _ & Htr)).
    exists w'. split; [exact Hrun | exact Htr].
  - unfold thermistor_bconstant_setter.
    destruct (write_word_succeeds 0 w LC709203F_CMD_THERMISTORB data Hwf
                ltac:(unfold LC709203F_CMD_THERMISTORB; lia) ltac:(lia) Hnone Hnow)
      as (w' & Hrun & _ & _ & (_ & _ & Htr)).
    exists w'. split; [exact Hrun |]. rewrite wire_frame_mod. exact Htr.
  - unfold low_voltage_alarm_setter.
    destruct (write_word_succeeds 0 w LC709203F_CMD_ALARMVOLTAGE data Hwf
                ltac:(unfold LC709203F_CMD_ALARMVOLTAGE; lia) ltac:(lia) Hnone Hnow)
      as (w' & Hrun & _ & _ & (_ & _ & Htr)).
    exists w'. split; [exact Hrun |]. rewrite wire_frame_mod. exact Htr.
Qed.

Lemma write_word_sends_data_mod_65536_witness :
  exists w',
    thermistor_bconstant_setter 70000 (device bus_ok 0x0B) = (w', Ok tt) /\
    trace w' = [EvWrite 0x0B (wire_frame LC709203F_CMD_THERMISTORB 4464)].
Proof.
  destruct (write_word_sends_data_mod_65536
              (device bus_ok 0x0B) LC709203F_CMD_THERMISTORB 70000)
    as (_ & _ & _ & Hb & _).
  - apply device_wf.
  - unfold LC709203F_CMD_THERMISTORB. lia.
  - exists []. reflexivity.
  - exact Hb.
Defined.

(** ** Argument validation *)

Lemma add_values_string (value_tuples : list value_tuple) :
  forall (cls : CV) (v : Z),
    is_Some
      (cv_string
         (foldl
            (fun cls (value_tuple : value_tuple) =>
               let '(name, value, string, lsb) := value_tuple in
               {| cv_attr := <[name := value]> (cv_attr cls);
                  cv_string := <[value := string]> (cv_string cls);
                  cv_lsb := <[value := lsb]> (cv_lsb cls) |})
            cls value_tuples) !! v) <->
    In v (codes value_tuples) \/ is_Some (cv_string cls !! v).
Proof.
  induction value_tuples as [| [[[name value] str] lsb] rest IH]; intros cls v.
  - cbn [foldl codes map In]. tauto.
  - cbn [foldl codes map In fst snd]. rewrite IH. cbn [cv_string].
    rewrite lookup_insert_is_Some. fold (codes rest).
    destruct (decide (value = v)); tauto.
Qed.

(** [is_valid] accepts exactly the codes handed to [add_values]. *)
Lemma is_valid_codes (value_tuples : list value_tuple) (v : Z) :
  is_valid (add_values value_tuples) v = true <-> In v (codes value_tuples).
Proof.
  unfold is_valid, add_values. rewrite bool_decide_eq_true, add_values_string.
  cbn [cv_string]. rewrite lookup_empty. split.
  - intros [H | H]; [exact H | destruct H as [x Hx]; discriminate Hx].
  - intros H. left. exact H.
Qed.

Lemma is_valid_not_codes (value_tuples : list value_tuple) (v : Z) :
  ~ In v (codes value_tuples) -> is_valid (add_values value_tuples) v = false.
Proof.
  intros H. destruct (is_valid (add_values value_tuples) v) eqn:E; [| reflexivity].
  apply is_valid_codes in E. contradiction.
Qed.

(** C8: a [power_mode] outside the PowerMode set, a [pack_size] outside
    the PackSize set, a [battery_profile] other than 0 and 1, a
    [thermistor_enable] that is not a boolean and a
    [low_voltage_alarm_percent] outside [0, 100] each make the setter
    raise [ValueError] at once: the driver and the bus are left exactly
    as they were, so no transfer and no retry took place. *)
Theorem setters_reject_invalid_arguments
    (w : world) (mode size profile percent : Z) (status : pyval) :
  ~ In mode (codes PowerMode_values) ->
  ~ In size (codes PackSize_values) ->
  profile <> 0 -> profile <> 1 ->
  (forall b, status <> PyBool b) ->
  ~ (0 <= percent <= 100) ->
  power_mode_setter mode w =
    (w, Raise (ValueError "power_mode must be a PowerMode")) /\
  pack_size_setter size w =
    (w, Raise (ValueError "pack_size must be a PackSize")) /\
  battery_profile_setter profile w =
    (w, Raise (ValueError "battery_profile must be 0 or 1")) /\
  thermistor_enable_setter status w =
    (w, Raise (ValueError "thermistor_enable must be True or False")) /\
  low_voltage_alarm_percent_setter percent w =
    (w, Raise (ValueError "alarm voltage percent must be 0-100")).
Proof.
  intros Hmode Hsize Hp0 Hp1 Hstatus Hpercent.
  split; [| split; [| split; [| split]]].
  - unfold power_mode_setter, PowerMode.
    rewrite (is_valid_not_codes _ _ Hmode). reflexivity.
  - unfold pack_size_setter, PackSize.
    rewrite (is_valid_not_codes _ _ Hsize). reflexivity.
  - unfold battery_profile_setter.
    destruct (Z.eqb_spec profile 0) as [E | _]; [contradiction |].
    destruct (Z.eqb_spec profile 1) as [E | _]; [contradiction |].
    reflexivity.
  - unfold thermistor_enable_setter.
    destruct status as [| b | z]; try reflexivity.
    exfalso. exact (Hstatus b eq_refl).
  - unfold low_voltage_alarm_percent_setter.
    destruct (Z.leb_spec 0 percent) as [H0 | H0];
      destruct (Z.leb_spec percent 100) as [H1 | H1];
      try reflexivity.
    exfalso. apply Hpercent. lia.
Qed.

Lemma setters_reject_invalid_arguments_witness :
  let w := device bus_ok 0x0B in
  power_mode_setter 5 w =
    (w, Raise (ValueError "power_mode must be a PowerMode")) /\
  pack_size_setter 999 w =
    (w, Raise (ValueError "pack_size must be a PackSize")) /\
  battery_profile_setter 2 w =
    (w, Raise (ValueError "battery_profile must be 0 or 1")) /\
  thermistor_enable_setter (PyInt 1) w =
    (w, Raise (ValueError "thermistor_enable must be True or False")) /\
  low_voltage_alarm_percent_setter 150 w =
    (w, Raise (ValueError "alarm voltage percent must be 0-100")).
Proof.
  apply (setters_reject_invalid_arguments (device bus_ok 0x0B) 5 999 2 150 (PyInt 1)).
  - cbn [codes map PowerMode_values In fst snd]. lia.
  - cbn [codes map PackSize_values In fst snd]. lia.
  - lia.
  - lia.
  - intros b. discriminate.
  - lia.
Defined.

(** ** Accessors on a bus that always fails *)

Lemma try_except_OSError_caught {A : Type} (body handler : M A)
    (w w' : world) (msg : string) :
  body w = (w', Raise (OSError msg)) ->
  try_except_OSError body handler w = handler w'.
Proof. intros H. unfold try_except_OSError. rewrite H. reflexivity. Qed.

Section AlwaysFails.
Variable w : world.
Variable last : exn.
Hypothesis Hwf : wf w.
Hypothesis Hdead : forall n, exists e, bus_error (oracle w n) e.
Hypothesis Hlast : bus_error (oracle w (clock w + 9)%nat) last.

Lemma dead_read (command : Z) :
  0 <= command < 256 ->
  exists w', _read_word command w = (w', Raise last).
Proof.
  intros Hc.
  destruct (read_word_exhausted w command last Hwf Hc) as (w' & Hrun & _).
  - intros i _. destruct (Hdead (clock w + i)%nat) as [e He].
    exists e. left. exact He.
  - left. exact Hlast.
  - exists w'. exact Hrun.
Qed.

Lemma dead_write (command data : Z) :
  0 <= command < 256 ->
  exists w', _write_word command data w = (w', Raise last).
Proof.
  intros Hc.
  destruct (write_word_exhausted w command data last Hwf Hc) as (w' & Hrun & _).
  - intros i _. apply Hdead.
  - exact Hlast.
  - exists w'. exact Hrun.
Qed.

Lemma dead_read_snd (command : Z) :
  0 <= command < 256 -> snd (_read_word command w) = Raise last.
Proof. intros Hc. destruct (dead_read command Hc) as [w' H]. rewrite H. reflexivity. Qed.

Lemma dead_write_snd (command data : Z) :
  0 <= command < 256 -> snd (_write_word command data w) = Raise last.
Proof. intros Hc. destruct (dead_write command data Hc) as [w' H]. rewrite H. reflexivity. Qed.

(** A getter of the shape [try: return f(_read_word(c)) except
    OSError: return None] returns [None]. *)
Lemma dead_swallowed {A : Type} (command : Z) (k : option Z -> M (option A)) :
  0 <= command < 256 ->
  snd (try_except_OSError (bind (_read_word command) k) (ret None) w) = Ok None.
Proof.
  intros Hc. destruct (dead_read command Hc) as [w' H].
  destruct Hlast as (_ & msg & ->).
  rewrite (try_except_OSError_caught _ _ w w' msg).
  - reflexivity.
  - apply bind_raise. exact H.
Qed.
End AlwaysFails.

Ltac command_range :=
  unfold LC709203F_CMD_ICVERSION, LC709203F_CMD_BATTPROF, LC709203F_CMD_POWERMODE,
    LC709203F_CMD_APA, LC709203F_CMD_INITRSOC, LC709203F_CMD_CELLVOLTAGE,
    LC709203F_CMD_CELLITE, LC709203F_CMD_CELLTEMPERATURE, LC709203F_CMD_THERMISTORB,
    LC709203F_CMD_STATUSBIT, LC709203F_CMD_ALARMPERCENT, LC709203F_CMD_ALARMVOLTAGE;
  lia.

(** C5, as stated, fails: on a bus that always fails the
    [cell_temperature] getter does not propagate the error, it returns
    [None] like [cell_voltage] and [cell_percent]. *)
Lemma cell_temperature_getter_swallows_error :
  (forall n, bus_error (bus_dead n) (OSError "[Errno 19] No such device")) /\
  snd (cell_temperature (device bus_dead 0x0B)) = Ok None /\
  ~ (exists e, snd (cell_temperature (device bus_dead 0x0B)) = Raise e).
Proof.
  split; [| split].
  - intros n. unfold bus_dead, scripted. destruct n; exact nack_bus_error.
  - vm_compute. reflexivity.
  - intros [e He]. vm_compute in He. discriminate He.
Qed.

(** C5, amended: on a bus that always fails, three getters
    ([cell_voltage], [cell_percent] and [cell_temperature]) swallow the
    error and return [None]; every other getter, and every setter given
    an argument it accepts, raises the error of the tenth attempt. *)
Theorem absent_on_failure_three_getters (w : world) (last : exn) :
  wf w ->
  (forall n, exists e, bus_error (oracle w n) e) ->
  bus_error (oracle w (clock w + 9)%nat) last ->
  (snd (cell_voltage w) = Ok None /\
   snd (cell_percent w) = Ok None /\
   snd (cell_temperature w) = Ok None) /\
  (snd (ic_version w) = Raise last /\
   snd (power_mode w) = Raise last /\
   snd (battery_profile w) = Raise last /\
   snd (pack_size w) = Raise last /\
   snd (thermistor_bconstant w) = Raise last /\
   snd (thermistor_enable w) = Raise last /\
   snd (low_voltage_alarm_percent w) = Raise last /\
   snd (low_voltage_alarm w) = Raise last) /\
  ((forall mode, In mode (codes PowerMode_values) ->
      snd (power_mode_setter mode w) = Raise last) /\
   (forall mode, mode = 0 \/ mode = 1 ->
      snd (battery_profile_setter mode w) = Raise last) /\
   (forall size, In size (codes PackSize_values) ->
      snd (pack_size_setter size w) = Raise last) /\
   (forall bconstant, snd (thermistor_bconstant_setter bconstant w) = Raise last) /\
   (forall b, snd (thermistor_enable_setter (PyBool b) w) = Raise last) /\
   (forall value, snd (cell_temperature_setter value w) = Raise last) /\
   (forall percent, 0 <= percent <= 100 ->
      snd (low_voltage_alarm_percent_setter percent w) = Raise last) /\
   (forall voltage, snd (low_voltage_alarm_setter voltage w) = Raise last)).
Proof.
  intros Hwf Hdead Hlast.
  split; [| split].
  - split; [| split]; apply (dead_swallowed w last Hwf Hdead Hlast); command_range.
  - repeat split; apply (dead_read_snd w last Hwf Hdead Hlast); command_range.
  - split; [| split; [| split; [| split; [| split; [| split; [| split]]]]]].
    + intros mode Hin. unfold power_mode_setter, PowerMode.
      rewrite (proj2 (is_valid_codes _ _) Hin). cbn [negb].
      apply (dead_write_snd w last Hwf Hdead Hlast). command_range.
    + intros mode Hmode. unfold battery_profile_setter.
      assert (E : (mode =? 0) || (mode =? 1) = true).
      { apply orb_true_iff. rewrite !Z.eqb_eq. exact Hmode. }
      rewrite E. cbn [negb].
      apply (dead_write_snd w last Hwf Hdead Hlast). command_range.
    + intros size Hin. unfold pack_size_setter, PackSize.
      rewrite (proj2 (is_valid_codes _ _) Hin). cbn [negb].
      apply (dead_write_snd w last Hwf Hdead Hlast). command_range.
    + intros bconstant. apply (dead_write_snd w last Hwf Hdead Hlast). command_range.
    + intros b. apply (dead_write_snd w last Hwf Hdead Hlast). command_range.
    + intros value. unfold cell_temperature_setter, thermistor_enable.
      destruct (dead_read w last Hwf Hdead Hlast LC709203F_CMD_STATUSBIT
                  ltac:(command_range)) as [w' H].
      rewrite (bind_raise _ _ _ _ _ H). reflexivity.
    + intros percent Hp. unfold low_voltage_alarm_percent_setter.
      assert (E : (0 <=? percent) && (percent <=? 100) = true).
      { apply andb_true_iff. rewrite !Z.leb_le. exact Hp. }
      rewrite E. cbn [negb].
      apply (dead_write_snd w last Hwf Hdead Hlast). command_range.
    + intros voltage. apply (dead_write_snd w last Hwf Hdead Hlast). command_range.
Qed.

Lemma absent_on_failure_three_getters_witness :
  snd (cell_temperature (device bus_dead 0x0B)) = Ok None /\
  snd (ic_version (device bus_dead 0x0B)) =
    Raise (OSError "[Errno 19] No such device").
Proof.
  destruct (absent_on_failure_three_getters (device bus_dead 0x0B)
              (OSError "[Errno 19] No such device"))
    as ((_ & _ & Htemp) & (Hver & _) & _).
  - apply device_wf.
  - intros n. exists (OSError "[Errno 19] No such device").
    cbn [oracle device]. unfold bus_dead, scripted. destruct n; exact nack_bus_error.
  - exact nack_bus_error.
  - split; [exact Htemp | exact Hver].
Defined.

(** ** Setting the cell temperature *)

(** A status read that gets through at once with the word [d0 + 256 * d1]. *)
Lemma status_read (w : world) (d0 d1 : Z) :
  wf w ->
  crc_match LC709203F_CMD_STATUSBIT d0 d1 (oracle w (clock w)) ->
  exists w',
    thermistor_enable w = (w', Ok (Some (d0 + 256 * d1))) /\
    wf w' /\ device_address w' = device_address w /\
    oracle w' = oracle w /\ clock w' = S (clock w) /\
    trace w' = trace w ++
      [EvWriteThenReadinto (device_address w) [LC709203F_CMD_STATUSBIT] 4].
Proof.
  intros Hwf Hok. unfold thermistor_enable.
  destruct (read_word_succeeds 0 w LC709203F_CMD_STATUSBIT d0 d1 Hwf
              ltac:(command_range) ltac:(lia))
    as (w' & Hrun & Hwf' & Ha' & (Ho' & Hc' & Ht')).
  - intros i Hi. lia.
  - rewrite Nat.add_0_r. exact Hok.
  - exists w'. repeat (split; [assumption |]). split; [lia | exact Ht'].
Qed.

(** X12: while thermistor sensing is enabled (the status register reads
    a non-zero word) the setter raises [ValueError] after that one status
    read and writes nothing. *)
Lemma cell_temperature_setter_guard (w : world) (value : Q) (d0 d1 : Z) :
  wf w ->
  crc_match LC709203F_CMD_STATUSBIT d0 d1 (oracle w (clock w)) ->
  d0 + 256 * d1 <> 0 ->
  exists w',
    cell_temperature_setter value w =
      (w', Raise (ValueError "temperature can only be set in i2c mode")) /\
    trace w' = trace w ++
      [EvWriteThenReadinto (device_address w) [LC709203F_CMD_STATUSBIT] 4].
Proof.
  intros Hwf Hok Hne.
  destruct (status_read w d0 d1 Hwf Hok) as (w' & Hrun & _ & _ & _ & _ & Ht).
  exists w'. split; [| exact Ht].
  unfold cell_temperature_setter. rewrite (bind_ok _ _ _ _ _ Hrun).
  cbn [truthy]. destruct (Z.eqb_spec (d0 + 256 * d1) 0) as [E | _]; [contradiction |].
  reflexivity.
Qed.


(** C7, at 25 degrees Celsius with thermistor sensing disabled: the
    setter writes the word 2980 = int(25 + 273.15) * 10 to the
    CELLTEMPERATURE register, whereas (25 + 273.15) * 10 is 2981.5, whose
    integer part is 2981. *)
Theorem cell_temperature_setter_truncates_before_scaling :
  let r := cell_temperature_setter 25 (device bus_i2c_mode 0x0B) in
  snd r = Ok tt /\
  trace (fst r) =
    [EvWriteThenReadinto 0x0B [LC709203F_CMD_STATUSBIT] 4;
     EvWrite 0x0B (wire_frame LC709203F_CMD_CELLTEMPERATURE 2980)] /\
  int ((25 + 273.15) * 10)%Q = 2981 /\
  wire_frame LC709203F_CMD_CELLTEMPERATURE 2980 <>
    wire_frame LC709203F_CMD_CELLTEMPERATURE 2981.
Proof.
  split; [| split; [| split]].
  - vm_compute. reflexivity.
  - vm_compute. reflexivity.
  - vm_compute. reflexivity.
  - vm_compute. discriminate.
Qed.

(** ** Construction *)

Lemma bind_inv_ok {A B : Type} (m : M A) (k : A -> M B) (w w' : world) (b : B) :
  bind m k w = (w', Ok b) ->
  exists w1 a, m w = (w1, Ok a) /\ k a w1 = (w', Ok b).
Proof.
  unfold bind. destruct (m w) as [w1 [a | e]]; intros H.
  - exists w1, a. split; [reflexivity | exact H].
  - discriminate H.
Qed.

Lemma probe_loop_ok (x : nat) (xs : list nat) (a : Z) (exc : option exn)
    (w : world) (rx : list Z) :
  oracle w (clock w) = BusOk rx ->
  probe_loop (x :: xs) a exc w = (tick (log (EvProbe a) w), Ok tt).
Proof. intros H. cbn [probe_loop]. unfold I2CDevice. rewrite H. reflexivity. Qed.

Lemma probe_loop_retry (x : nat) (xs : list nat) (a : Z) (exc : option exn)
    (w : world) (msg : string) :
  oracle w (clock w) = BusFail (ValueError msg) ->
  probe_loop (x :: xs) a exc w =
    probe_loop xs a (Some (ValueError msg))
      (log (EvSleep 0.1) (tick (log (EvProbe a) w))).
Proof. intros H. cbn [probe_loop]. unfold I2CDevice. rewrite H. reflexivity. Qed.

(** Probing touches neither the device address, nor the scratch buffer,
    nor the bus oracle. *)
Lemma probe_loop_frame (xs : list nat) (a : Z) :
  forall (exc : option exn) (w : world),
    device_address (fst (probe_loop xs a exc w)) = device_address w /\
    buf (fst (probe_loop xs a exc w)) = buf w /\
    oracle (fst (probe_loop xs a exc w)) = oracle w.
Proof.
  induction xs as [| x xs IH]; intros exc w.
  - cbn [probe_loop]. destruct exc; auto.
  - cbn [probe_loop]. unfold I2CDevice.
    destruct (oracle w (clock w)) as [[m | m | m] | rx]; cbn [fst]; auto.
    unfold bind, sleep.
    exact (IH (Some (ValueError m)) (log (EvSleep 0.1) (tick (log (EvProbe a) w)))).
Qed.

(** The class attributes read by the constructor are the constants used
    for them. *)
Lemma constructor_attributes :
  cv_attr PowerMode !! "OPERATE" = Some PowerMode_OPERATE /\
  cv_attr PowerMode !! "SLEEP" = Some PowerMode_SLEEP /\
  cv_attr PackSize !! "MAH500" = Some PackSize_MAH500 /\
  cv_lsb PackSize !! PackSize_MAH500 = Some (Some 500).
Proof. repeat split; vm_compute; reflexivity. Qed.

Lemma PowerMode_OPERATE_valid : is_valid PowerMode PowerMode_OPERATE = true.
Proof. apply is_valid_codes. unfold PowerMode_OPERATE. cbn. lia. Qed.

Lemma PackSize_MAH500_valid : is_valid PackSize PackSize_MAH500 = true.
Proof. apply is_valid_codes. unfold PackSize_MAH500. cbn. lia. Qed.

(** The configuration writes of the constructor are plain word writes. *)
Lemma init_setters (w : world) :
  power_mode_setter PowerMode_OPERATE w = _write_word LC709203F_CMD_POWERMODE 1 w /\
  pack_size_setter PackSize_MAH500 w = _write_word LC709203F_CMD_APA 0x10 w /\
  battery_profile_setter 1 w = _write_word LC709203F_CMD_BATTPROF 1 w.
Proof.
  unfold power_mode_setter, pack_size_setter, battery_profile_setter.
  rewrite PowerMode_OPERATE_valid, PackSize_MAH500_valid. auto.
Qed.

(** A write keeps the driver well formed and its address, whatever the
    bus does. *)
Lemma write_word_frame (w : world) (command data : Z) :
  wf w -> 0 <= command < 256 ->
  wf (fst (_write_word command data w)) /\
  device_address (fst (_write_word command data w)) = device_address w /\
  oracle (fst (_write_word command data w)) = oracle w.
Proof.
  intros Hwf Hc.
  destruct (write_word_total w command data Hwf Hc) as (j & _ & (Ho & _) & Hready).
  split; [exact (write_ready_wf _ _ _ _ Hready) |].
  split; [exact (proj1 Hready) | exact Ho].
Qed.

(** A constructed driver is well formed and holds the address and the
    bus it was constructed with. *)
Lemma init_constructed (i2c_bus : nat -> outcome) (address : Z) (w : world) :
  __init__ i2c_bus address = (w, Ok tt) ->
  wf w /\ device_address w = address /\ oracle w = i2c_bus.
Proof.
  unfold __init__. intros H.
  apply bind_inv_ok in H. destruct H as (w1 & [] & Hprobe & H).
  apply bind_inv_ok in H. destruct H as (w2 & [] & Halloc & H).
  apply bind_inv_ok in H. destruct H as (w3 & [] & Hpm & H).
  apply bind_inv_ok in H. destruct H as (w4 & [] & Hps & H).
  apply bind_inv_ok in H. destruct H as (w5 & [] & Hbp & H).
  apply bind_inv_ok in H. destruct H as (w6 & [] & Hs1 & H).
  apply bind_inv_ok in H. destruct H as (w7 & [] & Hrsoc & Hs2).
  destruct (probe_loop_frame (seq 0 3) address None (fresh i2c_bus address))
    as (Ha1 & _ & Ho1).
  rewrite Hprobe in Ha1, Ho1. cbn [fst fresh device_address oracle] in Ha1, Ho1.
  injection Halloc as Hw2. 
  assert (I2 : wf w2 /\ device_address w2 = address /\ oracle w2 = i2c_bus).
  { subst w2. split; [reflexivity |]. split; assumption. }
  destruct (init_setters w2) as (E & _ & _). rewrite E in Hpm. clear E.
  assert (I3 : wf w3 /\ device_address w3 = address /\ oracle w3 = i2c_bus).
  { destruct I2 as (Hwf & Ha & Ho).
    destruct (write_word_frame w2 LC709203F_CMD_POWERMODE 1 Hwf ltac:(command_range))
      as (Hwf' & Ha' & Ho').
    rewrite Hpm in Hwf', Ha', Ho'. cbn [fst] in *.
    split; [exact Hwf' |]. split; congruence. }
  destruct (init_setters w3) as (_ & E & _). rewrite E in Hps. clear E.
  assert (I4 : wf w4 /\ device_address w4 = address /\ oracle w4 = i2c_bus).
  { destruct I3 as (Hwf & Ha & Ho).
    destruct (write_word_frame w3 LC709203F_CMD_APA 0x10 Hwf ltac:(command_range))
      as (Hwf' & Ha' & Ho').
    rewrite Hps in Hwf', Ha', Ho'. cbn [fst] in *.
    split; [exact Hwf' |]. split; congruence. }
  destruct (init_setters w4) as (_ & _ & E). rewrite E in Hbp. clear E.
  assert (I5 : wf w5 /\ device_address w5 = address /\ oracle w5 = i2c_bus).
  { destruct I4 as (Hwf & Ha & Ho).
    destruct (write_word_frame w4 LC709203F_CMD_BATTPROF 1 Hwf ltac:(command_range))
      as (Hwf' & Ha' & Ho').
    rewrite Hbp in Hwf', Ha', Ho'. cbn [fst] in *.
    split; [exact Hwf' |]. split; congruence. }
  injection Hs1 as Hw6.
  assert (I6 : wf w6 /\ device_address w6 = address /\ oracle w6 = i2c_bus).
  { subst w6. exact I5. }
  assert (I7 : wf w7 /\ device_address w7 = address /\ oracle w7 = i2c_bus).
  { destruct I6 as (Hwf & Ha & Ho). unfold init_RSOC in Hrsoc.
    destruct (write_word_frame w6 LC709203F_CMD_INITRSOC 0xAA55 Hwf ltac:(command_range))
      as (Hwf' & Ha' & Ho').
    rewrite Hrsoc in Hwf', Ha', Ho'. cbn [fst] in *.
    split; [exact Hwf' |]. split; congruence. }
  injection Hs2 as Hw. subst w. exact I7.
Qed.

(** C6, as stated, fails: a driver constructed with address 0x0C still
    frames its transactions with 0x16 = 0x0B << 1, so neither the write
    frame, nor the bytes put on the wire, nor the read header are those
    built from the construction address. *)
Lemma frame_address_is_not_construction_address :
  let w := fst (__init__ bus_ok 0x0C) in
  let w1 := fst (_write_word LC709203F_CMD_POWERMODE 1 w) in
  let w2 := fst (_read_word LC709203F_CMD_POWERMODE w) in
  snd (__init__ bus_ok 0x0C) = Ok tt /\
  device_address w = 0x0C /\
  take 5 (buf w1) <> spec_write_frame 0x0C LC709203F_CMD_POWERMODE 1 /\
  last (trace w1) <>
    Some (EvWrite 0x0C (drop 1 (spec_write_frame 0x0C LC709203F_CMD_POWERMODE 1))) /\
  take 3 (buf w2) <> spec_read_header 0x0C LC709203F_CMD_POWERMODE.
Proof.
  split; [| split; [| split; [| split]]].
  - vm_compute. reflexivity.
  - vm_compute. reflexivity.
  - vm_compute. discriminate.
  - vm_compute. discriminate.
  - vm_compute. discriminate.
Qed.

(** C6, amended: a device constructed with address [A] keeps [A] as the
    address its transfers are sent to, but the address byte used for
    framing and for the CRC is the fixed 0x0B << 1: a write builds the
    frame [0x16, command, low byte, high byte, CRC of these four] and
    transmits, on each of its one to ten attempts, only the last four
    bytes; a read builds the header [0x16, command, 0x17] and transmits
    the command byte. *)
Theorem frames_use_default_address (A : Z) :
  (forall i2c_bus w,
     __init__ i2c_bus A = (w, Ok tt) -> wf w /\ device_address w = A) /\
  (forall w command data,
     wf w -> device_address w = A -> 0 <= command < 256 ->
     let w1 := fst (_write_word command data w) in
     let w2 := fst (_read_word command w) in
     take 5 (buf w1) = spec_write_frame LC709203F_I2CADDR_DEFAULT command data /\
     (exists j, (1 <= j <= 10)%nat /\
        trace w1 = trace w ++
          replicate j
            (EvWrite A (drop 1 (spec_write_frame LC709203F_I2CADDR_DEFAULT command data)))) /\
     take 3 (buf w2) = spec_read_header LC709203F_I2CADDR_DEFAULT command /\
     (exists j, (1 <= j <= 10)%nat /\
        trace w2 = trace w ++ replicate j (EvWriteThenReadinto A [command] 4))).
Proof.
  split.
  - intros i2c_bus w H. destruct (init_constructed _ _ _ H) as (Hwf & Ha & _).
    split; assumption.
  - intros w command data Hwf Ha Hc w1 w2. subst A.
    destruct (write_word_total w command data Hwf Hc)
      as (j1 & Hj1 & (_ & _ & Ht1) & (_ & t1 & Hl1 & Hb1)).
    destruct (read_word_total w command Hwf Hc)
      as (j2 & Hj2 & (_ & _ & Ht2) & (_ & t2 & Hl2 & Hb2)).
    change (spec_write_frame LC709203F_I2CADDR_DEFAULT command data)
      with (0x16 :: wire_frame command data).
    change (spec_read_header LC709203F_I2CADDR_DEFAULT command)
      with [0x16; command; 0x17].
    subst w1 w2. rewrite Hb1, Hb2.
    split; [reflexivity |].
    split; [exists j1; split; [exact Hj1 | exact Ht1] |].
    split; [reflexivity |].
    exists j2. split; [exact Hj2 | exact Ht2].
Qed.

Lemma frames_use_default_address_witness :
  let w := fst (__init__ bus_ok 0x0C) in
  device_address w = 0x0C /\
  take 5 (buf (fst (_write_word LC709203F_CMD_POWERMODE 1 w))) =
    spec_write_frame 0x0B LC709203F_CMD_POWERMODE 1.
Proof.
  destruct (frames_use_default_address 0x0C) as (Hinit & Hframes).
  destruct (Hinit bus_ok (fst (__init__ bus_ok 0x0C))) as (Hwf & Ha).
  - vm_compute. reflexivity.
  - split; [exact Ha |].
    destruct (Hframes (fst (__init__ bus_ok 0x0C)) LC709203F_CMD_POWERMODE 1 Hwf Ha)
      as (Hbuf & _).
    + command_range.
    + exact Hbuf.
Defined.

(** What the constructor does once the probe [probe] has succeeded and
    left the world [W], when the next four bus operations complete. *)
Lemma init_after_probe (probe : M unit) (w0 W : world) :
  probe w0 = (W, Ok tt) ->
  (forall j, (j < 4)%nat -> exists rx, oracle W (clock W + j)%nat = BusOk rx) ->
  exists w',
    (probe >>
     (fun w => (set_buf (replicate 10 0) w, Ok tt)) >>
     power_mode_setter PowerMode_OPERATE >>
     pack_size_setter PackSize_MAH500 >>
     battery_profile_setter 1 >>
     sleep 0.1 >>
     init_RSOC >>
     sleep 0.1) w0 = (w', Ok tt) /\
    trace w' = trace W ++
      [EvWrite (device_address W) (wire_frame LC709203F_CMD_POWERMODE 1);
       EvWrite (device_address W) (wire_frame LC709203F_CMD_APA 0x10);
       EvWrite (device_address W) (wire_frame LC709203F_CMD_BATTPROF 1);
       EvSleep 0.1;
       EvWrite (device_address W) (wire_frame LC709203F_CMD_INITRSOC 0xAA55);
       EvSleep 0.1].
Proof.
  intros Hprobe Hok.
  rewrite (bind_ok _ _ _ _ _ Hprobe).
  erewrite bind_ok by reflexivity.
  set (w2 := set_buf (replicate 10 0) W).
  destruct (write_ok_step w2 LC709203F_CMD_POWERMODE 1)
    as (w3 & R3 & Hwf3 & Ha3 & Ho3 & Hc3 & Ht3).
  { reflexivity. } { command_range. }
  { subst w2. cbn [oracle clock set_buf].
    destruct (Hok 0%nat ltac:(lia)) as [rx Hrx]. rewrite Nat.add_0_r in Hrx. eauto. }
  rewrite <- (proj1 (init_setters w2)) in R3. rewrite (bind_ok _ _ _ _ _ R3).
  destruct (write_ok_step w3 LC709203F_CMD_APA 0x10 Hwf3)
    as (w4 & R4 & Hwf4 & Ha4 & Ho4 & Hc4 & Ht4).
  { command_range. }
  { rewrite Ho3, Hc3. subst w2. cbn [oracle clock set_buf].
    destruct (Hok 1%nat ltac:(lia)) as [rx Hrx].
    replace (clock W + 1)%nat with (S (clock W)) in Hrx by lia. eauto. }
  rewrite <- (proj1 (proj2 (init_setters w3))) in R4. rewrite (bind_ok _ _ _ _ _ R4).
  destruct (write_ok_step w4 LC709203F_CMD_BATTPROF 1 Hwf4)
    as (w5 & R5 & Hwf5 & Ha5 & Ho5 & Hc5 & Ht5).
  { command_range. }
  { rewrite Ho4, Hc4, Ho3, Hc3. subst w2. cbn [oracle clock set_buf].
    destruct (Hok 2%nat ltac:(lia)) as [rx Hrx].
    replace (clock W + 2)%nat with (S (S (clock W))) in Hrx by lia. eauto. }
  rewrite <- (proj2 (proj2 (init_setters w4))) in R5. rewrite (bind_ok _ _ _ _ _ R5).
  erewrite bind_ok by reflexivity.
  set (w6 := log (EvSleep 0.1) w5).
  destruct (write_ok_step w6 LC709203F_CMD_INITRSOC 0xAA55)
    as (w7 & R7 & Hwf7 & Ha7 & Ho7 & Hc7 & Ht7).
  { exact Hwf5. } { command_range. }
  { subst w6. cbn [oracle clock log].
    rewrite Ho5, Hc5, Ho4, Hc4, Ho3, Hc3. subst w2. cbn [oracle clock set_buf].
    destruct (Hok 3%nat ltac:(lia)) as [rx Hrx].
    replace (clock W + 3)%nat with (S (S (S (clock W)))) in Hrx by lia. eauto. }
  unfold init_RSOC. rewrite (bind_ok _ _ _ _ _ R7).
  eexists. split; [reflexivity |].
  cbn [trace log]. rewrite Ht7. subst w6. cbn [trace log device_address].
  rewrite Ht5, Ha5, Ht4, Ha4, Ht3, Ha3. subst w2. cbn [trace device_address set_buf].
  rewrite <- !app_assoc. reflexivity.
Qed.

(** C9: construction probes the device up to three times, sleeping 0.1 s
    after each failed probe.  When the first [k < 3] probes fail with
    [ValueError] and the next succeeds, and the four writes that follow
    get through, the constructor performs in order: the probes and
    sleeps, the write of OPERATE to POWERMODE, of the 500 mAh code 0x10 to
    APA, of 1 to BATTPROF, a sleep, the write of 0xAA55 to INITRSOC, a
    sleep.  When all three probes fail, the [ValueError] of the third is
    raised after three probes and three sleeps, and nothing is written. *)
Theorem init_sequence (i2c_bus : nat -> outcome) (address : Z) (k : nat) :
  (forall i, (i < k)%nat -> exists msg, i2c_bus i = BusFail (ValueError msg)) ->
  ((k < 3)%nat ->
   (exists rx, i2c_bus k = BusOk rx) ->
   (forall j, (j < 4)%nat -> exists rx, i2c_bus (k + 1 + j)%nat = BusOk rx) ->
   exists w',
     __init__ i2c_bus address = (w', Ok tt) /\
     trace w' =
       concat (replicate k [EvProbe address; EvSleep 0.1]) ++
       [EvProbe address;
        EvWrite address (wire_frame LC709203F_CMD_POWERMODE PowerMode_OPERATE);
        EvWrite address (wire_frame LC709203F_CMD_APA PackSize_MAH500);
        EvWrite address (wire_frame LC709203F_CMD_BATTPROF 1);
        EvSleep 0.1;
        EvWrite address (wire_frame LC709203F_CMD_INITRSOC 0xAA55);
        EvSleep 0.1]) /\
  (k = 3%nat ->
   forall msg, i2c_bus 2%nat = BusFail (ValueError msg) ->
   exists w',
     __init__ i2c_bus address = (w', Raise (ValueError msg)) /\
     trace w' = concat (replicate 3 [EvProbe address; EvSleep 0.1])).
Proof.
  intros Hfail. split.
  - intros Hk [rx Hok] Hwrites. unfold __init__.
    change (seq 0 3) with [0; 1; 2]%nat.
    destruct k as [| [| [| k]]]; [| | | lia].
    + destruct (init_after_probe (probe_loop [0; 1; 2]%nat address None)
                  (fresh i2c_bus address)
                  (tick (log (EvProbe address) (fresh i2c_bus address))))
        as (w' & Hrun & Htr).
      * apply (probe_loop_ok _ _ _ _ _ rx). exact Hok.
      * intros j Hj. exact (Hwrites j Hj).
      * exists w'. split; [exact Hrun |]. rewrite Htr. reflexivity.
    + destruct (Hfail 0%nat ltac:(lia)) as [m0 H0].
      destruct (init_after_probe (probe_loop [0; 1; 2]%nat address None)
                  (fresh i2c_bus address)
                  (tick (log (EvProbe address)
                     (log (EvSleep 0.1)
                        (tick (log (EvProbe address) (fresh i2c_bus address)))))))
        as (w' & Hrun & Htr).
      * rewrite (probe_loop_retry _ _ _ _ _ m0) by exact H0.
        apply (probe_loop_ok _ _ _ _ _ rx). exact Hok.
      * intros j Hj. exact (Hwrites j Hj).
      * exists w'. split; [exact Hrun |]. rewrite Htr. reflexivity.
    + destruct (Hfail 0%nat ltac:(lia)) as [m0 H0].
      destruct (Hfail 1%nat ltac:(lia)) as [m1 H1].
      destruct (init_after_probe (probe_loop [0; 1; 2]%nat address None)
                  (fresh i2c_bus address)
                  (tick (log (EvProbe address)
                     (log (EvSleep 0.1)
                        (tick (log (EvProbe address)
                           (log (EvSleep 0.1)
                              (tick (log (EvProbe address)
                                 (fresh i2c_bus address))))))))))
        as (w' & Hrun & Htr).
      * rewrite (probe_loop_retry _ _ _ _ _ m0) by exact H0.
        rewrite (probe_loop_retry _ _ _ _ _ m1) by exact H1.
        apply (probe_loop_ok _ _ _ _ _ rx). exact Hok.
      * intros j Hj. exact (Hwrites j Hj).
      * exists w'. split; [exact Hrun |]. rewrite Htr. reflexivity.
  - intros -> msg H2. unfold __init__.
    change (seq 0 3) with [0; 1; 2]%nat.
    destruct (Hfail 0%nat ltac:(lia)) as [m0 H0].
    destruct (Hfail 1%nat ltac:(lia)) as [m1 H1].
    eexists. split.
    + apply bind_raise.
      rewrite (probe_loop_retry _ _ _ _ _ m0) by exact H0.
      rewrite (probe_loop_retry _ _ _ _ _ m1) by exact H1.
      rewrite (probe_loop_retry _ _ _ _ _ msg) by exact H2.
      reflexivity.
    + reflexivity.
Qed.

Lemma init_sequence_witness :
  exists w',
    __init__ bus_slow_wake 0x0B = (w', Ok tt) /\
    trace w' =
      [EvProbe 0x0B; EvSleep 0.1; EvProbe 0x0B;
       EvWrite 0x0B [0x15; 1; 0; 100];
       EvWrite 0x0B [0x0B; 0x10; 0; 168];
       EvWrite 0x0B [0x12; 1; 0; 114];
       EvSleep 0.1;
       EvWrite 0x0B [0x07; 0x55; 0xAA; 23];
       EvSleep 0.1].
Proof.
  destruct (init_sequence bus_slow_wake 0x0B 1) as (Hgood & _).
  - intros i Hi. destruct i as [| i]; [| lia]. eexists. reflexivity.
  - destruct Hgood as (w' & Hrun & Htr).
    + lia.
    + exists []. reflexivity.
    + intros j Hj. exists []. do 4 (destruct j as [| j]; [reflexivity |]). lia.
    + exists w'. split; [exact Hrun |]. rewrite Htr. vm_compute. reflexivity.
Defined.

(** * Further properties of the driver *)

(** ** Algebra of the CRC *)

Ltac xor_bits :=
  apply Z.bits_inj'; intros ?n ?Hn;
  repeat (rewrite Z.land_spec || rewrite Z.lxor_spec || rewrite Z.bits_0);
  repeat match goal with
         | |- context [Z.testbit ?x ?n] => destruct (Z.testbit x n)
         end;
  reflexivity.

(** A boolean property checked on the 256 bytes holds of every byte. *)
Lemma byte_forall (P : Z -> bool) :
  forallb P all_bytes = true -> forall d, 0 <= d < 256 -> P d = true.
Proof.
  intros H d Hd. rewrite forallb_forall in H. apply H.
  unfold all_bytes. apply in_map_iff. exists (Z.to_nat d).
  split; [lia |]. apply in_seq. lia.
Qed.

Lemma crc_shift_lxor (u v : Z) :
  crc_shift (Z.lxor u v) = Z.lxor (crc_shift u) (crc_shift v).
Proof.
  unfold crc_shift. rewrite !land_0x80, Z.lxor_spec, Z.shiftl_lxor.
  destruct (Z.testbit u 7), (Z.testbit v 7); cbn [xorb Z.eqb]; xor_bits.
Qed.

Lemma crc_shift_kernel (d : Z) : 0 <= d < 256 -> crc_shift d = 0 -> d = 0.
Proof.
  intros Hd H.
  pose proof (byte_forall (fun d => negb (crc_shift d =? 0) || (d =? 0))
                ltac:(vm_compute; reflexivity) d Hd) as Hc.
  cbv beta in Hc. rewrite H in Hc. cbn [Z.eqb negb orb] in Hc.
  apply Z.eqb_eq. exact Hc.
Qed.

Lemma iter_crc_shift_lxor (n : nat) (u v : Z) :
  Nat.iter n crc_shift (Z.lxor u v) =
  Z.lxor (Nat.iter n crc_shift u) (Nat.iter n crc_shift v).
Proof.
  induction n as [| n IH]; [reflexivity |].
  rewrite !Nat.iter_succ, IH. apply crc_shift_lxor.
Qed.

Lemma iter_crc_shift_0 (n : nat) : Nat.iter n crc_shift 0 = 0.
Proof. induction n as [| n IH]; [reflexivity |]. rewrite Nat.iter_succ, IH. reflexivity. Qed.

Lemma iter_crc_shift_kernel (n : nat) (d : Z) :
  0 <= d < 256 -> Nat.iter n crc_shift d = 0 -> d = 0.
Proof.
  revert d. induction n as [| n IH]; intros d Hd H; [exact H |].
  rewrite Nat.iter_succ_r in H.
  apply (crc_shift_kernel d Hd). apply IH; [apply crc_shift_byte | exact H].
Qed.

Lemma lxor_byte (a b : Z) : 0 <= a < 256 -> 0 <= b < 256 -> 0 <= Z.lxor a b < 256.
Proof.
  intros Ha Hb.
  assert (Hnn : 0 <= Z.lxor a b) by (apply Z.lxor_nonneg; lia).
  split; [exact Hnn |].
  destruct (Z.eq_dec (Z.lxor a b) 0) as [E | E]; [lia |].
  change 256 with (2 ^ 8). apply Z.log2_lt_pow2; [lia |].
  pose proof (Z.log2_lxor a b ltac:(lia) ltac:(lia)) as Hl.
  assert (La : Z.log2 a < 8).
  { destruct (Z.eq_dec a 0) as [-> | Na]; [cbn; lia |].
    apply Z.log2_lt_pow2; lia. }
  assert (Lb : Z.log2 b < 8).
  { destruct (Z.eq_dec b 0) as [-> | Nb]; [cbn; lia |].
    apply Z.log2_lt_pow2; lia. }
  lia.
Qed.

Lemma differ_neq (u v : Z) : differ u v -> u <> v.
Proof. intros H ->. unfold differ in H. rewrite Z.lxor_nilpotent in H. lia. Qed.

Lemma differ_shift (u v : Z) : differ u v -> differ (crc_shift u) (crc_shift v).
Proof.
  unfold differ. intros H. rewrite <- crc_shift_lxor.
  pose proof (crc_shift_byte (Z.lxor u v)) as Hb.
  destruct (Z.eq_dec (crc_shift (Z.lxor u v)) 0) as [E | E]; [| lia].
  apply crc_shift_kernel in E; lia.
Qed.

Lemma differ_iter (n : nat) (u v : Z) :
  differ u v -> differ (Nat.iter n crc_shift u) (Nat.iter n crc_shift v).
Proof.
  intros H. induction n as [| n IH]; [exact H |].
  rewrite !Nat.iter_succ. apply differ_shift. exact IH.
Qed.

Lemma differ_crc_byte (a1 a2 y : Z) :
  differ a1 a2 -> differ (crc_byte a1 y) (crc_byte a2 y).
Proof.
  intros H. unfold crc_byte. apply differ_iter. unfold differ in *.
  replace (Z.lxor (Z.lxor a1 y) (Z.lxor a2 y)) with (Z.lxor a1 a2) by xor_bits.
  exact H.
Qed.

Lemma differ_foldl (post : list Z) :
  forall a1 a2, differ a1 a2 ->
    differ (foldl crc_byte a1 post) (foldl crc_byte a2 post).
Proof.
  induction post as [| y post IH]; intros a1 a2 H; [exact H |].
  cbn [foldl]. apply IH. apply differ_crc_byte. exact H.
Qed.

Lemma differ_crc_byte_data (a b b' : Z) :
  differ b b' -> differ (crc_byte a b) (crc_byte a b').
Proof.
  intros H. unfold crc_byte. apply differ_iter. unfold differ in *.
  replace (Z.lxor (Z.lxor a b) (Z.lxor a b')) with (Z.lxor b b') by xor_bits.
  exact H.
Qed.

(** X1: a corruption confined to one byte of a message always changes
    its CRC, wherever the byte is and whatever surrounds it. *)
Theorem crc_detects_single_byte_error (pre post : list Z) (b b' : Z) :
  0 <= b < 256 -> 0 <= b' < 256 -> b <> b' ->
  _generate_crc (pre ++ b :: post) <> _generate_crc (pre ++ b' :: post).
Proof.
  intros Hb Hb' Hne. unfold _generate_crc.
  rewrite !foldl_app. cbn [foldl].
  apply differ_neq, differ_foldl, differ_crc_byte_data. unfold differ.
  pose proof (lxor_byte b b' Hb Hb') as Hx.
  destruct (Z.eq_dec (Z.lxor b b') 0) as [E | E]; [| lia].
  apply Z.lxor_eq in E. contradiction.
Qed.

Lemma crc_detects_single_byte_error_witness :
  _generate_crc ([0x16; 0x09; 0x17] ++ 0x74 :: [0x0E]) <>
  _generate_crc ([0x16; 0x09; 0x17] ++ 0x75 :: [0x0E]).
Proof.
  apply (crc_detects_single_byte_error [0x16; 0x09; 0x17] [0x0E] 0x74 0x75); lia.
Defined.

(** X2: a byte [c] appended to a message makes the CRC of the whole
    zero exactly when [c] is the CRC of the message: a frame that ends in
    its CRC is checked by a receiver as a zero remainder. *)
Theorem crc_of_frame_with_crc_is_zero (data : list Z) (c : Z) :
  0 <= c < 256 ->
  (_generate_crc (data ++ [c]) = 0 <-> c = _generate_crc data).
Proof.
  intros Hc. unfold _generate_crc. rewrite foldl_snoc.
  fold (_generate_crc data). unfold crc_byte.
  pose proof (generate_crc_byte data) as Hd.
  pose proof (lxor_byte (_generate_crc data) c Hd Hc) as Hx.
  split.
  - intros H. apply iter_crc_shift_kernel in H; [| exact Hx].
    apply Z.lxor_eq in H. congruence.
  - intros ->. rewrite Z.lxor_nilpotent. apply iter_crc_shift_0.
Qed.

Lemma crc_of_frame_with_crc_is_zero_witness :
  _generate_crc ([0x16; 0x09; 0x17; 0x74; 0x0E] ++ [183]) = 0.
Proof.
  apply (crc_of_frame_with_crc_is_zero [0x16; 0x09; 0x17; 0x74; 0x0E] 183).
  - lia.
  - vm_compute. reflexivity.
Defined.

Lemma foldl_crc_byte_lxor (l1 : list Z) :
  forall (l2 : list Z) (a b : Z),
    length l1 = length l2 ->
    foldl crc_byte (Z.lxor a b) (zip_with Z.lxor l1 l2) =
    Z.lxor (foldl crc_byte a l1) (foldl crc_byte b l2).
Proof.
  induction l1 as [| x l1 IH]; intros [| y l2] a b Hlen;
    try discriminate Hlen; [reflexivity |].
  cbn [zip_with foldl]. injection Hlen as Hlen.
  rewrite <- (IH l2 _ _ Hlen). f_equal.
  unfold crc_byte. rewrite <- iter_crc_shift_lxor. f_equal. xor_bits.
Qed.

(** X3: the CRC is linear over GF(2): the CRC of the bytewise XOR of two
    messages of the same length is the XOR of their CRCs. *)
Theorem generate_crc_linear (l1 l2 : list Z) :
  length l1 = length l2 ->
  _generate_crc (zip_with Z.lxor l1 l2) =
  Z.lxor (_generate_crc l1) (_generate_crc l2).
Proof.
  intros Hlen. unfold _generate_crc.
  change 0 with (Z.lxor 0 0) at 1. apply foldl_crc_byte_lxor. exact Hlen.
Qed.

Lemma generate_crc_linear_witness :
  _generate_crc (zip_with Z.lxor [0x16; 0x09; 0x17] [0x01; 0x00; 0x80]) =
  Z.lxor (_generate_crc [0x16; 0x09; 0x17]) (_generate_crc [0x01; 0x00; 0x80]).
Proof. apply (generate_crc_linear [0x16; 0x09; 0x17] [0x01; 0x00; 0x80]). reflexivity. Defined.

(** ** More on the retry loop *)

Lemma bind_not_none {A B : Type} (m : M A) (k : A -> M (option B)) (w : world) :
  (forall a w', snd (k a w') <> Ok None) -> snd (bind m k w) <> Ok None.
Proof.
  intros H. unfold bind. destruct (m w) as [w' [a | e]]; [apply H | discriminate].
Qed.

(** X4: the final [return None] of [_read_word] is never reached: for
    every argument and every state of the driver and the bus, the call
    returns a word or raises. *)
Theorem read_word_never_returns_none (command : Z) (w : world) :
  snd (_read_word command w) <> Ok None.
Proof.
  unfold _read_word.
  apply bind_not_none. intros _ w1.
  apply bind_not_none. intros _ w2.
  apply bind_not_none. intros _ w3.
  apply (retry_loop_not_none read_attempt 9 0 w3). reflexivity.
Qed.

Section RetryAbort.
Context {A : Type}.
Variable body : M A.
Variable attempt : outcome -> result A.
Variable Inv : world -> Prop.
Variable ev : event.

Hypothesis body_step : forall w, Inv w ->
  snd (body w) = attempt (oracle w (clock w)) /\
  Inv (fst (body w)) /\
  advanced ev 1 w (fst (body w)).

(** [k] attempts that fail with [OSError], then one that raises
    another exception: it leaves the loop at once. *)
Lemma retry_aborts (k : nat) :
  forall (n s : nat) (w : world) (e : exn),
    (s + n = LC709203F_I2C_RETRY_COUNT)%nat -> (k < n)%nat -> Inv w ->
    (forall i, (i < k)%nat ->
       exists msg, attempt (oracle w (clock w + i)%nat) = Raise (OSError msg)) ->
    attempt (oracle w (clock w + k)%nat) = Raise e ->
    (forall msg, e <> OSError msg) ->
    exists w', retry_loop (seq s n) body w = (w', Raise e) /\
               Inv w' /\ advanced ev (S k) w w'.
Proof.
  induction k as [| k IH]; intros n s w e Hsn Hk HI Hfail Hlast Hother.
  - destruct n as [| n]; [lia |]. cbn [seq retry_loop].
    destruct (body_step w HI) as (Hr & HI1 & Hadv).
    destruct (body w) as [w1 r]. cbn [fst snd] in *.
    rewrite Nat.add_0_r in Hlast. rewrite Hr, Hlast.
    destruct e as [m | m | m]; [exfalso; exact (Hother m eq_refl) | |];
      exists w1; auto.
  - destruct n as [| n]; [lia |]. cbn [seq retry_loop].
    destruct (body_step w HI) as (Hr & HI1 & Hadv).
    destruct (body w) as [w1 r]. cbn [fst snd] in *.
    destruct (Hfail 0%nat ltac:(lia)) as [msg Hm].
    rewrite Nat.add_0_r in Hm. rewrite Hr, Hm.
    last_attempt_case; [unfold LC709203F_I2C_RETRY_COUNT in *; lia |].
    destruct Hadv as (Ho1 & Hc1 & Ht1).
    destruct (IH n (S s) w1 e) as (w' & Hrun & HI' & Hadv').
    + lia.
    + lia.
    + exact HI1.
    + intros i Hi. rewrite Ho1, Hc1.
      replace (clock w + 1 + i)%nat with (clock w + S i)%nat by lia.
      apply Hfail. lia.
    + rewrite Ho1, Hc1.
      replace (clock w + 1 + k)%nat with (clock w + S k)%nat by lia.
      exact Hlast.
    + exact Hother.
    + exists w'. split; [exact Hrun |]. split; [exact HI' |].
      apply (advanced_step ev (S k) w w1 w'); [repeat split; assumption | exact Hadv'].
Qed.
End RetryAbort.

(** ** Exceptions other than [OSError] *)

(** X5: only [OSError] is retried.  When, after [k < 10] failed attempts,
    the bus raises an exception of another class, a read or a write
    raises that exception at once, after exactly [k + 1] transfers. *)
Theorem other_exceptions_are_not_retried
    (w : world) (command data : Z) (k : nat) (e : exn) :
  wf w -> 0 <= command < 256 -> (k < 10)%nat ->
  (forall msg, e <> OSError msg) ->
  oracle w (clock w + k)%nat = BusFail e ->
  ((forall i, (i < k)%nat ->
      exists e', read_fails command (oracle w (clock w + i)%nat) e') ->
   exists w',
     _read_word command w = (w', Raise e) /\
     advanced (EvWriteThenReadinto (device_address w) [command] 4) (S k) w w') /\
  ((forall i, (i < k)%nat ->
      exists e', bus_error (oracle w (clock w + i)%nat) e') ->
   exists w',
     _write_word command data w = (w', Raise e) /\
     advanced (EvWrite (device_address w) (wire_frame command data)) (S k) w w').
Proof.
  intros Hwf Hc Hk Hother Hlast. split.
  - intros Hfail.
    destruct (read_word_unfold command w Hwf Hc) as (Heq & Hready).
    rewrite Heq.
    destruct (retry_aborts read_attempt (read_result command)
                (read_ready command (device_address w))
                (EvWriteThenReadinto (device_address w) [command] 4)
                (read_attempt_step command (device_address w))
                k LC709203F_I2C_RETRY_COUNT 0%nat _ e eq_refl Hk Hready)
      as (w' & Hrun & _ & Hadv).
    + intros i Hi. destruct (Hfail i Hi) as [e' He'].
      destruct (read_fails_result _ _ _ He') as (msg & _ & Hr).
      exists msg. exact Hr.
    + cbn [oracle clock set_buf]. rewrite Hlast. reflexivity.
    + exact Hother.
    + exists w'. split; [exact Hrun | exact Hadv].
  - intros Hfail.
    destruct (write_word_unfold command data w Hwf Hc) as (Heq & Hready).
    rewrite Heq.
    destruct (retry_aborts write_attempt write_result
                (write_ready command data (device_address w))
                (EvWrite (device_address w) (wire_frame command data))
                (write_attempt_step command data (device_address w))
                k LC709203F_I2C_RETRY_COUNT 0%nat _ e eq_refl Hk Hready)
      as (w' & Hrun & _ & Hadv).
    + intros i Hi. destruct (Hfail i Hi) as [e' He'].
      destruct (bus_error_result _ _ He') as (msg & _ & Hr).
      exists msg. exact Hr.
    + cbn [oracle clock set_buf]. rewrite Hlast. reflexivity.
    + exact Hother.
    + exists w'. split; [rewrite (bind_raise _ _ _ _ _ Hrun); reflexivity | exact Hadv].
Qed.

Lemma other_exceptions_are_not_retried_witness :
  exists w',
    _read_word LC709203F_CMD_ICVERSION (device bus_broken 0x0B) =
      (w', Raise (TypeError "object with buffer protocol required")) /\
    clock w' = 2%nat.
Proof.
  destruct (other_exceptions_are_not_retried
              (device bus_broken 0x0B) LC709203F_CMD_ICVERSION 0 1
              (TypeError "object with buffer protocol required"))
    as (Hread & _).
  - apply device_wf.
  - command_range.
  - lia.
  - intros msg. discriminate.
  - reflexivity.
  - destruct Hread as (w' & Hrun & (_ & Hclk & _)).
    + intros i Hi. destruct i as [| i]; [| lia].
      exists (OSError "[Errno 19] No such device"). left. exact nack_bus_error.
    + exists w'. split; [exact Hrun | exact Hclk].
Defined.

(** ** Corrupted responses *)

(** X6: a response that differs from a valid one in exactly one of its
    three bytes (either data byte, or the CRC byte) is never accepted,
    whichever of the ten attempts receives it and whatever the other
    attempts do: the read never returns after that transfer.  When the
    attempts before it failed and the next response is valid, the read
    returns the word of that next response. *)
Theorem read_word_rejects_corrupted_response
    (w : world) (command : Z) (k : nat) (d0 d1 d0' d1' c' x : Z) :
  wf w -> 0 <= command < 256 -> (k < 10)%nat ->
  bytes [d0; d1; d0'; d1'; c'; x] ->
  (d0' <> d0 /\ d1' = d1 /\ c' = _generate_crc [0x16; command; 0x17; d0; d1]) \/
  (d0' = d0 /\ d1' <> d1 /\ c' = _generate_crc [0x16; command; 0x17; d0; d1]) \/
  (d0' = d0 /\ d1' = d1 /\ c' <> _generate_crc [0x16; command; 0x17; d0; d1]) ->
  oracle w (clock w + k)%nat = BusOk [d0'; d1'; c'; x] ->
  (forall w' r,
     _read_word command w = (w', Ok r) -> clock w' <> (clock w + S k)%nat) /\
  (forall e0 e1,
     (k < 9)%nat ->
     (forall i, (i < k)%nat ->
        exists e, read_fails command (oracle w (clock w + i)%nat) e) ->
     crc_match command e0 e1 (oracle w (clock w + S k)%nat) ->
     exists w',
       _read_word command w = (w', Ok (Some (e0 + 256 * e1))) /\
       advanced (EvWriteThenReadinto (device_address w) [command] 4) (S (S k)) w w').
Proof.
  intros Hwf Hc Hk Hb Hcorrupt Hthis.
  unfold bytes in Hb.
  inversion Hb as [| ? ? B0 Hb1]; subst.
  inversion Hb1 as [| ? ? B1 Hb2]; subst.
  inversion Hb2 as [| ? ? B0' Hb3]; subst.
  inversion Hb3 as [| ? ? B1' Hb4]; subst.
  inversion Hb4 as [| ? ? Bc Hb5]; subst.
  inversion Hb5 as [| ? ? Bx _]; subst.
  assert (Hresp : bytes [d0'; d1'; c'; x]).
  { unfold bytes. repeat (constructor; [assumption |]). constructor. }
  assert (Hbad : c' <> _generate_crc [0x16; command; 0x17; d0'; d1']).
  { destruct Hcorrupt as [(Hne & -> & ->) | [(-> & Hne & ->) | (-> & -> & Hne)]].
    - apply differ_neq. unfold _generate_crc.
      change [22; command; 23; d0; d1] with ([22; command; 23] ++ d0 :: [d1]).
      change [22; command; 23; d0'; d1] with ([22; command; 23] ++ d0' :: [d1]).
      rewrite !foldl_app. cbn [foldl].
      apply differ_crc_byte, differ_crc_byte_data. unfold differ.
      pose proof (lxor_byte d0 d0' B0 B0') as Hx.
      destruct (Z.eq_dec (Z.lxor d0 d0') 0) as [E | E]; [| lia].
      apply Z.lxor_eq in E. congruence.
    - apply differ_neq. unfold _generate_crc.
      change [22; command; 23; d0; d1] with ([22; command; 23; d0] ++ d1 :: []).
      change [22; command; 23; d0; d1'] with ([22; command; 23; d0] ++ d1' :: []).
      rewrite !foldl_app. cbn [foldl].
      apply differ_crc_byte_data. unfold differ.
      pose proof (lxor_byte d1 d1' B1 B1') as Hx.
      destruct (Z.eq_dec (Z.lxor d1 d1') 0) as [E | E]; [| lia].
      apply Z.lxor_eq in E. congruence.
    - exact Hne. }
  split.
  - intros w' r Hrun Hclk. destruct r as [v |].
    + destruct (read_word_returns_inv w w' command v Hwf Hc Hrun)
        as (k' & rx & f0 & f1 & fc & fx & _ & Hclk' & Ho' & Hfill & _ & Hfc & _).
      assert (k' = k) by lia. subst k'.
      rewrite Hthis in Ho'. injection Ho' as <-.
      rewrite (fill_4_bytes _ _ _ _ Hresp) in Hfill. injection Hfill as <- <- <- <-.
      rewrite <- generate_crc_spec in Hfc. contradiction.
    + destruct (read_word_unfold command w Hwf Hc) as (Heq & _).
      rewrite Heq in Hrun.
      apply (retry_loop_not_none read_attempt 9 0
               (set_buf (22 :: command :: 23 :: drop 3 (buf w)) w) eq_refl).
      change (seq 0 10) with (seq 0 LC709203F_I2C_RETRY_COUNT).
      rewrite Hrun. reflexivity.
  - intros e0 e1 Hk9 Hfail Hnext.
    destruct (read_word_succeeds (S k) w command e0 e1 Hwf Hc ltac:(lia))
      as (w' & Hrun & _ & _ & Hadv).
    + intros i Hi. destruct (Nat.eq_dec i k) as [-> | Hne].
      * exists (OSError "CRC failure on reading word"). right.
        split; [| reflexivity]. rewrite Hthis.
        exists d0', d1', c', x. split; [reflexivity |]. split; [exact Hresp | exact Hbad].
      * apply Hfail. lia.
    + exact Hnext.
    + exists w'. split; assumption.
Qed.

Lemma read_word_rejects_corrupted_response_witness :
  exists w',
    _read_word LC709203F_CMD_CELLVOLTAGE (device bus_corrupted_data 0x0B)
      = (w', Ok (Some 3700)) /\
    clock w' = 2%nat.
Proof.
  destruct (read_word_rejects_corrupted_response
              (device bus_corrupted_data 0x0B)
              LC709203F_CMD_CELLVOLTAGE 0 0x74 0x0E 0x75 0x0E 183 0)
    as (_ & Hnext).
  - apply device_wf.
  - command_range.
  - lia.
  - bytes_auto.
  - left. split; [lia |]. split; [reflexivity |]. vm_compute. reflexivity.
  - reflexivity.
  - destruct (Hnext 0x74 0x0E) as (w' & Hrun & (_ & Hclk & _)).
    + lia.
    + intros i Hi. lia.
    + exists 0. split; [vm_compute; reflexivity | bytes_auto].
    + exists w'. split; [exact Hrun | exact Hclk].
Defined.

(** ** Reading back what was written *)

Lemma set_get_word (w : world) (command data : Z) :
  wf w -> 0 <= command < 256 ->
  (exists rx, oracle w (clock w) = BusOk rx) ->
  echoes command data (oracle w (S (clock w))) ->
  exists w1 w2,
    _write_word command data w = (w1, Ok tt) /\
    _read_word command w1 = (w2, Ok (Some (data mod 65536))) /\
    trace w2 = trace w ++
      [EvWrite (device_address w) (wire_frame command data);
       EvWriteThenReadinto (device_address w) [command] 4].
Proof.
  intros Hwf Hc Hack Hecho.
  destruct (write_ok_step w command data Hwf Hc Hack)
    as (w1 & Hrun1 & Hwf1 & Ha1 & Ho1 & Hc1 & Ht1).
  destruct (read_word_succeeds 0 w1 command
              (Z.land data 0xFF) (Z.land (Z.shiftr data 8) 0xFF) Hwf1 Hc ltac:(lia))
    as (w2 & Hrun2 & _ & _ & (_ & _ & Ht2)).
  - intros i Hi. lia.
  - rewrite Nat.add_0_r, Ho1, Hc1. exact Hecho.
  - exists w1, w2. split; [exact Hrun1 |]. split.
    + rewrite Hrun2, split_word. reflexivity.
    + rewrite Ht2, Ht1, Ha1, <- app_assoc. reflexivity.
Qed.

(** X7: a write followed by a read of the same register, on a chip that
    acknowledges the write and answers the read with the bytes it was
    sent, returns [data mod 2^16] after one write and one read transfer. *)
Theorem write_then_read_round_trip (w : world) (command data : Z) :
  wf w -> 0 <= command < 256 ->
  (exists rx, oracle w (clock w) = BusOk rx) ->
  echoes command data (oracle w (S (clock w))) ->
  exists w',
    (_write_word command data >> _read_word command) w =
      (w', Ok (Some (data mod 65536))) /\
    trace w' = trace w ++
      [EvWrite (device_address w) (wire_frame command data);
       EvWriteThenReadinto (device_address w) [command] 4].
Proof.
  intros Hwf Hc Hack Hecho.
  destruct (set_get_word w command data Hwf Hc Hack Hecho)
    as (w1 & w2 & Hrun1 & Hrun2 & Ht).
  exists w2. split; [| exact Ht].
  rewrite (bind_ok _ _ _ _ _ Hrun1). exact Hrun2.
Qed.

Lemma write_then_read_round_trip_witness :
  exists w',
    (_write_word LC709203F_CMD_POWERMODE 65538 >> _read_word LC709203F_CMD_POWERMODE)
      (device bus_sleep_echo 0x0B) = (w', Ok (Some 2)).
Proof.
  destruct (write_then_read_round_trip
              (device bus_sleep_echo 0x0B) LC709203F_CMD_POWERMODE 65538)
    as (w' & Hrun & _).
  - apply device_wf.
  - command_range.
  - exists []. reflexivity.
  - exists 0. split; [vm_compute; reflexivity |].
    change (bytes [2; 0; 0]). bytes_auto.
  - exists w'. exact Hrun.
Defined.

Ltac code_range H :=
  cbn [codes map PowerMode_values PackSize_values In fst snd] in H; lia.

(** X8: on a chip that acknowledges the write and answers the following
    read with the bytes it was sent, setting a property and getting it
    gives the value back: unchanged for the validated setters (whose
    accepted values all fit in 16 bits), as 1 or 0 for
    [thermistor_enable], and reduced modulo 65536 for the two unvalidated
    setters. *)
Theorem set_then_get (w : world) :
  wf w ->
  (exists rx, oracle w (clock w) = BusOk rx) ->
  (forall mode,
     In mode (codes PowerMode_values) ->
     echoes LC709203F_CMD_POWERMODE mode (oracle w (S (clock w))) ->
     snd ((power_mode_setter mode >> power_mode) w) = Ok (Some mode)) /\
  (forall mode,
     mode = 0 \/ mode = 1 ->
     echoes LC709203F_CMD_BATTPROF mode (oracle w (S (clock w))) ->
     snd ((battery_profile_setter mode >> battery_profile) w) = Ok (Some mode)) /\
  (forall size,
     In size (codes PackSize_values) ->
     echoes LC709203F_CMD_APA size (oracle w (S (clock w))) ->
     snd ((pack_size_setter size >> pack_size) w) = Ok (Some size)) /\
  (forall percent,
     0 <= percent <= 100 ->
     echoes LC709203F_CMD_ALARMPERCENT percent (oracle w (S (clock w))) ->
     snd ((low_voltage_alarm_percent_setter percent >> low_voltage_alarm_percent) w)
       = Ok (Some percent)) /\
  (forall b,
     echoes LC709203F_CMD_STATUSBIT (Z.b2z b) (oracle w (S (clock w))) ->
     snd ((thermistor_enable_setter (PyBool b) >> thermistor_enable) w)
       = Ok (Some (Z.b2z b))) /\
  (forall bconstant,
     echoes LC709203F_CMD_THERMISTORB bconstant (oracle w (S (clock w))) ->
     snd ((thermistor_bconstant_setter bconstant >> thermistor_bconstant) w)
       = Ok (Some (bconstant mod 65536))) /\
  (forall voltage,
     echoes LC709203F_CMD_ALARMVOLTAGE voltage (oracle w (S (clock w))) ->
     snd ((low_voltage_alarm_setter voltage >> low_voltage_alarm) w)
       = Ok (Some (voltage mod 65536))).
Proof.
  intros Hwf Hack.
  assert (Hgo : forall command data,
            0 <= command < 256 ->
            echoes command data (oracle w (S (clock w))) ->
            snd ((_write_word command data >> _read_word command) w)
              = Ok (Some (data mod 65536))).
  { intros command data Hc Hecho.
    destruct (set_get_word w command data Hwf Hc Hack Hecho)
      as (w1 & w2 & R1 & R2 & _).
    rewrite (bind_ok _ _ _ _ _ R1), R2. reflexivity. }
  split; [| split; [| split; [| split; [| split; [| split]]]]].
  - intros mode Hin Hecho. unfold power_mode_setter, power_mode, PowerMode.
    rewrite (proj2 (is_valid_codes _ _) Hin). cbn [negb].
    rewrite (Hgo LC709203F_CMD_POWERMODE _ ltac:(command_range) Hecho).
    rewrite Z.mod_small by code_range Hin. reflexivity.
  - intros mode Hmode Hecho. unfold battery_profile_setter, battery_profile.
    assert (E : (mode =? 0) || (mode =? 1) = true).
    { apply orb_true_iff. rewrite !Z.eqb_eq. exact Hmode. }
    rewrite E. cbn [negb].
    rewrite (Hgo LC709203F_CMD_BATTPROF _ ltac:(command_range) Hecho).
    rewrite Z.mod_small by lia. reflexivity.
  - intros size Hin Hecho. unfold pack_size_setter, pack_size, PackSize.
    rewrite (proj2 (is_valid_codes _ _) Hin). cbn [negb].
    rewrite (Hgo LC709203F_CMD_APA _ ltac:(command_range) Hecho).
    rewrite Z.mod_small by code_range Hin. reflexivity.
  - intros percent Hp Hecho.
    unfold low_voltage_alarm_percent_setter, low_voltage_alarm_percent.
    assert (E : (0 <=? percent) && (percent <=? 100) = true).
    { apply andb_true_iff. rewrite !Z.leb_le. exact Hp. }
    rewrite E. cbn [negb].
    rewrite (Hgo LC709203F_CMD_ALARMPERCENT _ ltac:(command_range) Hecho).
    rewrite Z.mod_small by lia. reflexivity.
  - intros b Hecho. unfold thermistor_enable_setter, thermistor_enable.
    rewrite (Hgo LC709203F_CMD_STATUSBIT _ ltac:(command_range) Hecho).
    rewrite Z.mod_small by (destruct b; cbn; lia). reflexivity.
  - intros bconstant Hecho.
    unfold thermistor_bconstant_setter, thermistor_bconstant.
    exact (Hgo LC709203F_CMD_THERMISTORB _ ltac:(command_range) Hecho).
  - intros voltage Hecho.
    unfold low_voltage_alarm_setter, low_voltage_alarm.
    exact (Hgo LC709203F_CMD_ALARMVOLTAGE _ ltac:(command_range) Hecho).
Qed.

Lemma set_then_get_witness :
  snd ((power_mode_setter PowerMode_SLEEP >> power_mode) (device bus_sleep_echo 0x0B))
    = Ok (Some PowerMode_SLEEP).
Proof.
  destruct (set_then_get (device bus_sleep_echo 0x0B)) as (Hpm & _).
  - apply device_wf.
  - exists []. reflexivity.
  - apply Hpm.
    + unfold PowerMode_SLEEP. cbn. lia.
    + exists 0. split; [vm_compute; reflexivity |].
      change (bytes [2; 0; 0]). bytes_auto.
Defined.

(** ** The polling getters *)

Lemma try_except_OSError_ok {A : Type} (body handler : M A)
    (w w' : world) (a : A) :
  body w = (w', Ok a) -> try_except_OSError body handler w = (w', Ok a).
Proof. intros H. unfold try_except_OSError. rewrite H. reflexivity. Qed.

Lemma try_except_OSError_never {A : Type} (body : M (option A)) (w : world) (msg : string) :
  snd (try_except_OSError body (ret None) w) <> Raise (OSError msg).
Proof.
  unfold try_except_OSError.
  destruct (body w) as [w' [a | [m | m | m]]]; cbn; discriminate.
Qed.

(** X9: when one of the ten attempts gets a valid response carrying the
    word [r], after [k] failed ones, each of the eight raw getters
    returns [r] itself and each of the three polling getters returns a
    value rather than [None], after exactly [k + 1] transfers of a read
    of its own register. *)
Theorem getters_return_on_success (w : world) (k : nat) (d0 d1 : Z) :
  wf w -> (k < 10)%nat ->
  (forall getter command,
     In (getter, command) raw_getters ->
     (forall i, (i < k)%nat ->
        exists e, read_fails command (oracle w (clock w + i)%nat) e) ->
     crc_match command d0 d1 (oracle w (clock w + k)%nat) ->
     exists w',
       getter w = (w', Ok (Some (d0 + 256 * d1))) /\
       advanced (EvWriteThenReadinto (device_address w) [command] 4) (S k) w w') /\
  (forall getter command,
     In (getter, command) polling_getters ->
     (forall i, (i < k)%nat ->
        exists e, read_fails command (oracle w (clock w + i)%nat) e) ->
     crc_match command d0 d1 (oracle w (clock w + k)%nat) ->
     exists w' v,
       getter w = (w', Ok (Some v)) /\
       advanced (EvWriteThenReadinto (device_address w) [command] 4) (S k) w w').
Proof.
  intros Hwf Hk.
  assert (Hread : forall command,
            0 <= command < 256 ->
            (forall i, (i < k)%nat ->
               exists e, read_fails command (oracle w (clock w + i)%nat) e) ->
            crc_match command d0 d1 (oracle w (clock w + k)%nat) ->
            exists w',
              _read_word command w = (w', Ok (Some (d0 + 256 * d1))) /\
              advanced (EvWriteThenReadinto (device_address w) [command] 4) (S k) w w').
  { intros command Hc Hfail Hok.
    destruct (read_word_succeeds k w command d0 d1 Hwf Hc Hk Hfail Hok)
      as (w' & Hrun & _ & _ & Hadv).
    exists w'. split; assumption. }
  split.
  - intros getter command Hin Hfail Hok.
    cbn [raw_getters In] in Hin.
    repeat (destruct Hin as [Hin | Hin];
            [injection Hin as <- <-; apply Hread;
             [command_range | exact Hfail | exact Hok] |]).
    destruct Hin.
  - intros getter command Hin Hfail Hok.
    cbn [polling_getters In] in Hin.
    destruct Hin as [Hin | [Hin | [Hin | []]]]; injection Hin as <- <-.
    + destruct (Hread LC709203F_CMD_CELLVOLTAGE ltac:(command_range) Hfail Hok)
        as (w' & Hrun & Hadv).
      exists w'. eexists. split; [| exact Hadv].
      unfold cell_voltage. apply try_except_OSError_ok.
      rewrite (bind_ok _ _ _ _ _ Hrun). reflexivity.
    + destruct (Hread LC709203F_CMD_CELLITE ltac:(command_range) Hfail Hok)
        as (w' & Hrun & Hadv).
      exists w'. eexists. split; [| exact Hadv].
      unfold cell_percent. apply try_except_OSError_ok.
      rewrite (bind_ok _ _ _ _ _ Hrun). reflexivity.
    + destruct (Hread LC709203F_CMD_CELLTEMPERATURE ltac:(command_range) Hfail Hok)
        as (w' & Hrun & Hadv).
      exists w'. eexists. split; [| exact Hadv].
      unfold cell_temperature. apply try_except_OSError_ok.
      rewrite (bind_ok _ _ _ _ _ Hrun). reflexivity.
Qed.

Lemma getters_return_on_success_witness :
  exists w' v,
    cell_voltage (device bus_nine_failures 0x0B) = (w', Ok (Some v)) /\
    clock w' = 10%nat.
Proof.
  destruct (getters_return_on_success (device bus_nine_failures 0x0B) 9 0x74 0x0E)
    as (_ & Hpoll).
  - apply device_wf.
  - lia.
  - destruct (Hpoll cell_voltage LC709203F_CMD_CELLVOLTAGE)
      as (w' & v & Hrun & (_ & Hclk & _)).
    + cbn. tauto.
    + intros i Hi. exists (OSError "[Errno 19] No such device"). left.
      cbn [oracle clock device Nat.add]. rewrite (nine_nacks i Hi).
      exact nack_bus_error.
    + exists 0. split; [vm_compute; reflexivity | bytes_auto].
    + exists w', v. split; [exact Hrun | exact Hclk].
Defined.

(** X10: the three polling getters never raise [OSError], whatever the
    driver state and the bus; and when all ten attempts fail, by bus
    errors or CRC mismatches in any mix, they return [None] after exactly
    ten transfers. *)
Theorem polling_getters_absorb_failures (w : world) :
  wf w ->
  ((forall msg, snd (cell_voltage w) <> Raise (OSError msg)) /\
   (forall msg, snd (cell_percent w) <> Raise (OSError msg)) /\
   (forall msg, snd (cell_temperature w) <> Raise (OSError msg))) /\
  ((forall i, (i < 10)%nat ->
      exists e, read_fails LC709203F_CMD_CELLVOLTAGE (oracle w (clock w + i)%nat) e) ->
   exists w', cell_voltage w = (w', Ok None) /\ clock w' = (clock w + 10)%nat) /\
  ((forall i, (i < 10)%nat ->
      exists e, read_fails LC709203F_CMD_CELLITE (oracle w (clock w + i)%nat) e) ->
   exists w', cell_percent w = (w', Ok None) /\ clock w' = (clock w + 10)%nat) /\
  ((forall i, (i < 10)%nat ->
      exists e, read_fails LC709203F_CMD_CELLTEMPERATURE (oracle w (clock w + i)%nat) e) ->
   exists w', cell_temperature w = (w', Ok None) /\ clock w' = (clock w + 10)%nat).
Proof.
  intros Hwf.
  assert (Hgo : forall command (k : option Z -> M (option Q)),
            0 <= command < 256 ->
            (forall i, (i < 10)%nat ->
               exists e, read_fails command (oracle w (clock w + i)%nat) e) ->
            exists w',
              try_except_OSError (bind (_read_word command) k) (ret None) w
                = (w', Ok None) /\
              clock w' = (clock w + 10)%nat).
  { intros command k Hc Hfail.
    destruct (Hfail 9%nat ltac:(lia)) as [e He].
    destruct (read_word_exhausted w command e Hwf Hc) as (w' & Hrun & _ & _ & (_ & Hclk & _)).
    - intros i Hi. apply Hfail. lia.
    - exact He.
    - destruct (read_fails_result _ _ _ He) as (msg & -> & _).
      exists w'. split; [| exact Hclk].
      rewrite (try_except_OSError_caught _ _ w w' msg); [reflexivity |].
      apply bind_raise. exact Hrun. }
  split; [| split; [| split]].
  - split; [| split]; intros msg; apply try_except_OSError_never.
  - intros Hfail. apply Hgo; [command_range | exact Hfail].
  - intros Hfail. apply Hgo; [command_range | exact Hfail].
  - intros Hfail. apply Hgo; [command_range | exact Hfail].
Qed.

Lemma polling_getters_absorb_failures_witness :
  exists w',
    cell_percent (device bus_dead 0x0B) = (w', Ok None) /\ clock w' = 10%nat.
Proof.
  destruct (polling_getters_absorb_failures (device bus_dead 0x0B))
    as (_ & _ & Hp & _).
  - apply device_wf.
  - apply Hp. intros i Hi. exists (OSError "[Errno 19] No such device"). left.
    cbn [oracle clock device Nat.add]. unfold bus_dead, scripted.
    destruct i; exact nack_bus_error.
Defined.

(** ** What every operation keeps *)

Lemma keeps_ret {A : Type} (a : A) : keeps 0 (ret a).
Proof. intros w Hwf. cbn. repeat (split; [auto |]). lia. Qed.

Lemma keeps_raise {A : Type} (e : exn) : keeps 0 (@raise A e).
Proof. intros w Hwf. cbn. repeat (split; [auto |]). lia. Qed.

Lemma keeps_weaken {A : Type} (n n' : nat) (m : M A) :
  (n <= n')%nat -> keeps n m -> keeps n' m.
Proof.
  intros Hn H w Hwf. destruct (H w Hwf) as (H1 & H2 & H3 & H4).
  repeat (split; [assumption |]). lia.
Qed.

Lemma keeps_bind {A B : Type} (n n' : nat) (m : M A) (k : A -> M B) :
  keeps n m -> (forall a, keeps n' (k a)) -> keeps (n + n') (bind m k).
Proof.
  intros Hm Hk w Hwf. destruct (Hm w Hwf) as (H1 & H2 & H3 & H4).
  unfold bind. destruct (m w) as [w1 [a | e]]; cbn [fst] in *.
  - destruct (Hk a w1 H1) as (K1 & K2 & K3 & K4).
    split; [exact K1 |]. split; [congruence |]. split; [congruence | lia].
  - repeat (split; [assumption |]). lia.
Qed.

Lemma keeps_try {A : Type} (n : nat) (body handler : M A) :
  keeps n body -> keeps 0 handler -> keeps n (try_except_OSError body handler).
Proof.
  intros Hb Hh w Hwf. destruct (Hb w Hwf) as (H1 & H2 & H3 & H4).
  unfold try_except_OSError.
  destruct (body w) as [w1 [a | [m | m | m]]]; cbn [fst] in *;
    try (repeat (split; [assumption |]); lia).
  destruct (Hh w1 H1) as (K1 & K2 & K3 & K4).
  split; [exact K1 |]. split; [congruence |]. split; [congruence | lia].
Qed.

Lemma keeps_read (command : Z) : 0 <= command < 256 -> keeps 10 (_read_word command).
Proof.
  intros Hc w Hwf.
  destruct (read_word_total w command Hwf Hc) as (j & Hj & (Ho & Hclk & _) & Hready).
  split; [exact (read_ready_wf _ _ _ Hready) |].
  split; [exact (proj1 Hready) |]. split; [exact Ho | lia].
Qed.

Lemma keeps_write (command data : Z) :
  0 <= command < 256 -> keeps 10 (_write_word command data).
Proof.
  intros Hc w Hwf.
  destruct (write_word_total w command data Hwf Hc) as (j & Hj & (Ho & Hclk & _) & Hready).
  split; [exact (write_ready_wf _ _ _ _ Hready) |].
  split; [exact (proj1 Hready) |]. split; [exact Ho | lia].
Qed.

Lemma keeps_true_div (r : option Z) (d : Z) : keeps 0 (true_div r d).
Proof. destruct r; [apply keeps_ret | apply keeps_raise]. Qed.

Lemma keeps_polling (command d : Z) (f : Q -> Q) :
  0 <= command < 256 ->
  keeps 10
    (try_except_OSError
       (let* r := _read_word command in
        let* v := true_div r d in
        ret (Some (f v)))
       (ret None)).
Proof.
  intros Hc. apply keeps_try; [| apply keeps_ret].
  apply (keeps_bind 10 0); [apply keeps_read; exact Hc |].
  intros r. apply (keeps_bind 0 0); [apply keeps_true_div |].
  intros v. apply keeps_ret.
Qed.

(** X11: every accessor and [init_RSOC], called on a constructed driver
    with any argument and against any bus, leaves the 10-byte scratch
    buffer, the device address and the bus in place, and makes at most
    ten bus operations (twenty for the [cell_temperature] setter, which
    reads the status register before it writes). *)
Theorem accessors_keep_driver :
  (keeps 10 cell_voltage /\ keeps 10 cell_percent /\ keeps 10 cell_temperature /\
   keeps 10 ic_version /\ keeps 10 power_mode /\ keeps 10 battery_profile /\
   keeps 10 pack_size /\ keeps 10 thermistor_bconstant /\
   keeps 10 thermistor_enable /\ keeps 10 low_voltage_alarm_percent /\
   keeps 10 low_voltage_alarm) /\
  ((forall mode, keeps 10 (power_mode_setter mode)) /\
   (forall mode, keeps 10 (battery_profile_setter mode)) /\
   (forall size, keeps 10 (pack_size_setter size)) /\
   (forall bconstant, keeps 10 (thermistor_bconstant_setter bconstant)) /\
   (forall status, keeps 10 (thermistor_enable_setter status)) /\
   (forall percent, keeps 10 (low_voltage_alarm_percent_setter percent)) /\
   (forall voltage, keeps 10 (low_voltage_alarm_setter voltage)) /\
   (forall value, keeps 20 (cell_temperature_setter value)) /\
   keeps 10 init_RSOC).
Proof.
  assert (Hraise : forall e, keeps 10 (@raise unit e)).
  { intros e. apply (keeps_weaken 0 10); [lia | apply keeps_raise]. }
  split.
  - split; [apply (keeps_polling _ _ (fun v => v)); command_range |].
    split; [apply (keeps_polling _ _ (fun v => v)); command_range |].
    split; [apply (keeps_polling _ _ (fun v => (v - 273.15)%Q)); command_range |].
    split; [| split; [| split; [| split; [| split; [| split; [| split]]]]]];
      apply keeps_read; command_range.
  - split; [| split; [| split; [| split; [| split; [| split; [| split; [| split]]]]]]].
    + intros mode. unfold power_mode_setter.
      destruct (negb (is_valid PowerMode mode)); [apply Hraise |].
      apply keeps_write. command_range.
    + intros mode. unfold battery_profile_setter.
      destruct (negb ((mode =? 0) || (mode =? 1))); [apply Hraise |].
      apply keeps_write. command_range.
    + intros size. unfold pack_size_setter.
      destruct (negb (is_valid PackSize size)); [apply Hraise |].
      apply keeps_write. command_range.
    + intros bconstant. apply keeps_write. command_range.
    + intros status. unfold thermistor_enable_setter.
      destruct status as [| b | z]; try apply Hraise.
      apply keeps_write. command_range.
    + intros percent. unfold low_voltage_alarm_percent_setter.
      destruct (negb ((0 <=? percent) && (percent <=? 100))); [apply Hraise |].
      apply keeps_write. command_range.
    + intros voltage. apply keeps_write. command_range.
    + intros value. unfold cell_temperature_setter.
      apply (keeps_bind 10 10); [apply keeps_read; command_range |].
      intros te. destruct (truthy te); [apply Hraise |].
      apply keeps_write. command_range.
    + apply keeps_write. command_range.
Qed.

Lemma accessors_keep_driver_witness :
  wf (fst (cell_temperature_setter 25 (device bus_i2c_mode 0x0B))) /\
  (clock (fst (cell_temperature_setter 25 (device bus_i2c_mode 0x0B))) <= 20)%nat.
Proof.
  destruct accessors_keep_driver as (_ & _ & _ & _ & _ & _ & _ & _ & Hset & _).
  destruct (Hset 25%Q (device bus_i2c_mode 0x0B) (device_wf _ _)) as (Hwf & _ & _ & Hclk).
  split; [exact Hwf |]. cbn [clock device Nat.add] in Hclk. lia.
Defined.

(** ** The CELLTEMPERATURE setter *)

Lemma cell_temperature_setter_guard_witness :
  exists w',
    cell_temperature_setter 25 (device bus_thermistor_mode 0x0B) =
      (w', Raise (ValueError "temperature can only be set in i2c mode")) /\
    trace w' = [EvWriteThenReadinto 0x0B [LC709203F_CMD_STATUSBIT] 4].
Proof.
  apply (cell_temperature_setter_guard (device bus_thermistor_mode 0x0B) 25 1 0).
  - apply device_wf.
  - exists 0. split; [vm_compute; reflexivity | bytes_auto].
  - lia.
Defined.


(** ** Failures during construction *)

Lemma probe_loop_abort (x : nat) (xs : list nat) (a : Z) (exc : option exn)
    (w : world) (e : exn) :
  oracle w (clock w) = BusFail e ->
  (forall msg, e <> ValueError msg) ->
  probe_loop (x :: xs) a exc w = (tick (log (EvProbe a) w), Raise e).
Proof.
  intros H Hother. cbn [probe_loop]. unfold I2CDevice. rewrite H.
  destruct e as [m | m | m]; try reflexivity.
  exfalso. exact (Hother m eq_refl).
Qed.

(** X14: the constructor retries a probe only on [ValueError].  When,
    after [k < 3] probes that raised [ValueError], a probe raises an
    exception of another class, the constructor raises it at once: no
    sleep follows that probe, no further probe is made and nothing is
    written. *)
Theorem init_probe_error_not_retried
    (i2c_bus : nat -> outcome) (address : Z) (k : nat) (e : exn) :
  (k < 3)%nat ->
  (forall i, (i < k)%nat -> exists msg, i2c_bus i = BusFail (ValueError msg)) ->
  i2c_bus k = BusFail e ->
  (forall msg, e <> ValueError msg) ->
  exists w',
    __init__ i2c_bus address = (w', Raise e) /\
    trace w' =
      concat (replicate k [EvProbe address; EvSleep 0.1]) ++ [EvProbe address].
Proof.
  intros Hk Hfail Hlast Hother. unfold __init__.
  change (seq 0 3) with [0; 1; 2]%nat.
  destruct k as [| [| [| k]]]; [| | | lia].
  - eexists. split.
    + apply bind_raise. apply probe_loop_abort; [exact Hlast | exact Hother].
    + reflexivity.
  - destruct (Hfail 0%nat ltac:(lia)) as [m0 H0].
    eexists. split.
    + apply bind_raise.
      rewrite (probe_loop_retry _ _ _ _ _ m0) by exact H0.
      apply probe_loop_abort; [exact Hlast | exact Hother].
    + reflexivity.
  - destruct (Hfail 0%nat ltac:(lia)) as [m0 H0].
    destruct (Hfail 1%nat ltac:(lia)) as [m1 H1].
    eexists. split.
    + apply bind_raise.
      rewrite (probe_loop_retry _ _ _ _ _ m0) by exact H0.
      rewrite (probe_loop_retry _ _ _ _ _ m1) by exact H1.
      apply probe_loop_abort; [exact Hlast | exact Hother].
    + reflexivity.
Qed.

Lemma init_probe_error_not_retried_witness :
  exists w',
    __init__ bus_dead 0x0B = (w', Raise (OSError "[Errno 19] No such device")) /\
    trace w' = [EvProbe 0x0B].
Proof.
  apply (init_probe_error_not_retried bus_dead 0x0B 0).
  - lia.
  - intros i Hi. lia.
  - reflexivity.
  - intros msg. discriminate.
Defined.

(** X15: when the probe succeeds but the first configuration write fails
    ten times, the constructor raises the error of the tenth attempt
    after the probe and ten transfers of the POWERMODE frame: it does not
    sleep and issues none of the later writes. *)
Theorem init_aborts_on_write_failure
    (i2c_bus : nat -> outcome) (address : Z) (e : exn) :
  (exists rx, i2c_bus 0%nat = BusOk rx) ->
  (forall i, (i < 9)%nat -> exists e', bus_error (i2c_bus (1 + i)%nat) e') ->
  bus_error (i2c_bus 10%nat) e ->
  exists w',
    __init__ i2c_bus address = (w', Raise e) /\
    trace w' =
      EvProbe address ::
      replicate 10 (EvWrite address (wire_frame LC709203F_CMD_POWERMODE PowerMode_OPERATE)).
Proof.
  intros [rx Hprobe] Hfail Hlast. unfold __init__.
  change (seq 0 3) with [0; 1; 2]%nat.
  rewrite (bind_ok _ _ (fresh i2c_bus address)
             (tick (log (EvProbe address) (fresh i2c_bus address))) tt)
    by (apply (probe_loop_ok _ _ _ _ _ rx); exact Hprobe).
  erewrite bind_ok by reflexivity.
  set (w2 := set_buf (replicate 10 0)
               (tick (log (EvProbe address) (fresh i2c_bus address)))).
  destruct (write_word_exhausted w2 LC709203F_CMD_POWERMODE 1 e)
    as (w' & Hrun & _ & _ & (_ & _ & Htr)).
  - reflexivity.
  - command_range.
  - intros i Hi. exact (Hfail i Hi).
  - exact Hlast.
  - exists w'. split.
    + rewrite <- (proj1 (init_setters w2)) in Hrun.
      apply bind_raise. exact Hrun.
    + rewrite Htr. reflexivity.
Qed.

Lemma init_aborts_on_write_failure_witness :
  exists w',
    __init__ bus_probe_only 0x0B =
      (w', Raise (OSError "[Errno 19] No such device")) /\
    trace w' = EvProbe 0x0B :: replicate 10 (EvWrite 0x0B [0x15; 1; 0; 100]).
Proof.
  destruct (init_aborts_on_write_failure bus_probe_only 0x0B
              (OSError "[Errno 19] No such device"))
    as (w' & Hrun & Htr).
  - exists []. reflexivity.
  - intros i Hi. exists (OSError "[Errno 19] No such device").
    do 9 (destruct i as [| i]; [exact nack_bus_error |]). lia.
  - exact nack_bus_error.
  - exists w'. split; [exact Hrun |]. rewrite Htr. vm_compute. reflexivity.
Defined.

(** ** The [CV] tables *)

Lemma add_values_snoc (value_tuples : list value_tuple)
    (name : string) (value : Z) (str : string) (lsb : option Z) :
  add_values (value_tuples ++ [(name, value, str, lsb)]) =
  {| cv_attr := <[name := value]> (cv_attr (add_values value_tuples));
     cv_string := <[value := str]> (cv_string (add_values value_tuples));
     cv_lsb := <[value := lsb]> (cv_lsb (add_values value_tuples)) |}.
Proof. unfold add_values. rewrite foldl_snoc. reflexivity. Qed.

Lemma names_app (l1 l2 : list value_tuple) : names (l1 ++ l2) = names l1 ++ names l2.
Proof. unfold names. apply map_app. Qed.

Lemma codes_app (l1 l2 : list value_tuple) : codes (l1 ++ l2) = codes l1 ++ codes l2.
Proof. unfold codes. apply map_app. Qed.

(** X16: [add_values] registers every tuple.  For tuples whose names are
    plain (identifiers that start with a letter and are none of the
    attributes the class already has) and distinct, and whose codes are
    distinct, each name becomes a class attribute holding its
    code, and each code is a key of both dictionaries, mapped to the
    label and to the lsb of its tuple. *)
Theorem add_values_lookup (value_tuples : list value_tuple)
    (name : string) (value : Z) (str : string) (lsb : option Z) :
  Forall (fun n => plain_name n = true) (names value_tuples) ->
  List.NoDup (names value_tuples) ->
  List.NoDup (codes value_tuples) ->
  In (name, value, str, lsb) value_tuples ->
  cv_attr (add_values value_tuples) !! name = Some value /\
  cv_string (add_values value_tuples) !! value = Some str /\
  cv_lsb (add_values value_tuples) !! value = Some lsb.
Proof.
  intros _.
  induction value_tuples as [| [[[name' value'] str'] lsb'] rest IH] using rev_ind;
    intros Hnames Hcodes Hin; [destruct Hin |].
  rewrite add_values_snoc. cbn [cv_attr cv_string cv_lsb].
  rewrite names_app in Hnames. rewrite codes_app in Hcodes.
  apply List.NoDup_remove in Hnames. apply List.NoDup_remove in Hcodes.
  rewrite app_nil_r in Hnames, Hcodes.
  destruct Hnames as (Hnames & Hfreshn). destruct Hcodes as (Hcodes & Hfreshc).
  apply in_app_or in Hin. destruct Hin as [Hin | [Heq | []]].
  - destruct (IH Hnames Hcodes Hin) as (Ha & Hs & Hl).
    assert (name' <> name).
    { intros ->. apply Hfreshn. unfold names. apply in_map_iff.
      exists (name, value, str, lsb). split; [reflexivity | exact Hin]. }
    assert (value' <> value).
    { intros ->. apply Hfreshc. unfold codes. apply in_map_iff.
      exists (name, value, str, lsb). split; [reflexivity | exact Hin]. }
    rewrite !lookup_insert_ne by assumption. auto.
  - injection Heq as -> -> -> ->.
    rewrite !lookup_insert_eq. auto.
Qed.

Lemma add_values_lookup_witness :
  cv_attr PackSize !! "MAH500" = Some 0x10 /\
  cv_string PackSize !! 0x10 = Some "500 mAh" /\
  cv_lsb PackSize !! 0x10 = Some (Some 500).
Proof.
  apply (add_values_lookup PackSize_values "MAH500" 0x10 "500 mAh" (Some 500)).
  - cbn [names map PackSize_values fst snd].
    repeat (constructor; [vm_compute; reflexivity |]). constructor.
  - cbn [names map PackSize_values fst snd].
    repeat (constructor; [cbn [In]; intuition discriminate |]). constructor.
  - cbn [codes map PackSize_values fst snd].
    repeat (constructor; [cbn [In]; intuition discriminate |]). constructor.
  - cbn. tauto.
Defined.

(** X17: [is_valid] accepts exactly the codes that were registered, for
    every table of plainly named tuples; they are 1 and 2 for
    [PowerMode] and the eight pack-size codes for [PackSize]. *)
Theorem is_valid_exactly :
  (forall value_tuples v,
     Forall (fun n => plain_name n = true) (names value_tuples) ->
     (is_valid (add_values value_tuples) v = true <-> In v (codes value_tuples))) /\
  (forall v, is_valid PowerMode v = true <-> v = 1 \/ v = 2) /\
  (forall v, is_valid PackSize v = true <->
             In v [0x08; 0x0B; 0x0E; 0x10; 0x19; 0x2D; 0x30; 0x36]).
Proof.
  split; [| split].
  - intros value_tuples v _. apply is_valid_codes.
  - intros v. unfold PowerMode. rewrite is_valid_codes.
    cbn [codes map PowerMode_values In fst snd]. split.
    + intros [H | [H | []]]; [left | right]; symmetry; exact H.
    + intros [H | H]; [left | right; left]; symmetry; exact H.
  - intros v. unfold PackSize. rewrite is_valid_codes. reflexivity.
Qed.

Lemma is_valid_exactly_witness :
  is_valid (add_values PowerMode_values) 2 = true /\
  is_valid (add_values PowerMode_values) 5 = false.
Proof.
  destruct is_valid_exactly as (Hall & _).
  assert (Hplain : Forall (fun n => plain_name n = true) (names PowerMode_values)).
  { cbn [names map PowerMode_values fst snd].
    repeat (constructor; [vm_compute; reflexivity |]). constructor. }
  split.
  - apply (Hall PowerMode_values 2 Hplain). cbn. tauto.
  - destruct (is_valid (add_values PowerMode_values) 5) eqn:E; [| reflexivity].
    apply (Hall PowerMode_values 5 Hplain) in E.
    cbn [codes map PowerMode_values In fst snd] in E. lia.
Defined.
